(** * Verification of the rollup node core

    Two TypeScript classes are embedded here:

    - [DefaultStateManager] (packages/core/src/app/client/state-manager.ts),
      whose [executeTransaction] validates a transaction against the verified
      state updates of a state store and merges the predicates' results;
    - [DefaultWeb3Handler] (packages/rollup-full-node/src/app/handler.ts),
      which dispatches Web3 requests, repacks calldata for the execution
      manager and keeps the OVM hash to internal hash mapping.

    Both classes are asynchronous and talk to collaborators (state store,
    predicate plugins, provider, wallet, execution manager contract).  An
    [await]ed call is embedded as a step of a state-and-exception monad: the
    state records what has been asked of the collaborators so far, and a
    rejected promise is a thrown error. *)

From Stdlib Require Import ZArith String Ascii List Bool Lia.
From Stdlib Require PrimFloat SpecFloat FloatOps FloatAxioms Uint63.
From stdpp Require Import base option list strings gmap.
Import PrimFloat.PrimFloatNotations.

Local Open Scope Z_scope.

(** ** Computations that may throw and that act on collaborators *)

Inductive Outcome (E A : Type) : Type :=
| Throw (e : E)
| Return (a : A).

Arguments Throw {E A} e.
Arguments Return {E A} a.

(** [M S E A]: a computation over a state [S] that either throws an [E] or
    returns an [A]. *)
Definition M (S E A : Type) : Type := S -> S * Outcome E A.

Definition ret {S E A} (a : A) : M S E A := fun s => (s, Return a).

Definition throw {S E A} (e : E) : M S E A := fun s => (s, Throw e).

Definition bind {S E A B} (m : M S E A) (k : A -> M S E B) : M S E B :=
  fun s =>
    match m s with
    | (s', Return a) => k a s'
    | (s', Throw e) => (s', Throw e)
    end.

Notation "'let*' x ':=' m 'in' k" := (bind m (fun x => k))
  (at level 10, x name, m at level 100, k at level 200,
   format "'[v' 'let*'  x  ':='  m  'in' '/' k ']'").

(** A [for (const x of xs) { acc = body(acc, x) }] loop whose body may throw:
    the first throw leaves the loop. *)
Fixpoint forOf {S E A B} (body : B -> A -> M S E B) (xs : list A) (acc : B)
  : M S E B :=
  match xs with
  | [] => ret acc
  | x :: xs' => let* acc' := body acc x in forOf body xs' acc'
  end.

(** ** The state manager *)

Module StateManager.

(** *** Data (interfaces of the core package) *)

(** A half-open interval of the coordinate space.  The source holds [start]
    and [end] as bn.js big numbers, which are unbounded integers. *)
Record Range := { start : Z; end_ : Z }.

Record StateObject := { predicate : string; parameters : string }.

(** A JavaScript number is a double-precision float: [+] rounds to the
    nearest double and [===] is the comparison of IEEE 754, for which NaN
    differs from itself. *)
Definition number : Set := PrimFloat.float.

(** [a !== b] on numbers. *)
Definition strictNe (a b : number) : bool := negb (a =? b)%float.

Record StateUpdate := {
  range : Range;
  stateObject : StateObject;
  plasmaBlockNumber : number
}.

Record VerifiedStateUpdate := {
  stateUpdate : StateUpdate;
  verifiedBlockNumber : number
}.

(** The transaction's own range is [txRange] ([range] in the source, where
    the two interfaces may share a field name). *)
Record Transaction := {
  txRange : Range;
  txPredicate : option string;
  body : string
}.

(** A JavaScript object is known by its identity.  The state updates computed
    by predicates live in a store of objects, and a value of type [ref] is a
    reference into it; [===] and [!==] on objects compare references.  An
    object can be written to while the state manager awaits a collaborator,
    so what it holds is read at the moment the code reads it. *)
Definition ref := nat.

Definition strictEq (a b : ref) : bool := Nat.eqb a b.

(** The object returned by [executeTransaction]. *)
Record Result := {
  resultStateUpdate : option ref;   (* [undefined] is [None] *)
  validRanges : list Range
}.

(** Every [throw] site of [executeTransaction], and the failures of the
    collaborators it awaits. *)
Inductive Error :=
| InvalidTransaction
| InvalidVerifiedUpdate
| RangeMismatch
| BlockNumberMismatch
| InconsistentTransition
| StateDBFailure
| UnknownPredicate
| PredicateFailure.

(** What the state manager has asked of its collaborators, oldest first. *)
Inductive Event :=
| GetVerifiedStateUpdates (s e : Z)
| GetPlugin (address : string)
| ExecuteStateTransition (su : StateUpdate) (blockNumber : number) (tx : Transaction).

Definition Trace := list Event.

(** *** Collaborators

    Each collaborator answers a call knowing the calls made before it, so its
    answers may change from one call to the next.  [None] is a rejected
    promise. *)

Record PredicatePlugin := {
  executeStateTransition :
    Trace -> StateUpdate -> number -> Transaction -> option ref
}.

Record StateDB := {
  getVerifiedStateUpdates : Trace -> Z -> Z -> option (list VerifiedStateUpdate)
}.

Record PluginManager := {
  getPlugin : Trace -> string -> option PredicatePlugin
}.

Record DefaultStateManager := {
  stateDB : StateDB;
  pluginManager : PluginManager
}.

(** *** bn.js comparisons and extrema *)

Definition lte (a b : Z) : bool := a <=? b.
Definition gte (a b : Z) : bool := a >=? b.

(** [BN.max]: [if (left.cmp(right) > 0) return left; return right]. *)
Definition BigNum_max (left right : Z) : Z :=
  if left >? right then left else right.

(** [BN.min]: [if (left.cmp(right) < 0) return left; return right]. *)
Definition BigNum_min (left right : Z) : Z :=
  if left <? right then left else right.

(** *** Well-formedness checks (../common/utils) *)

(** Modelled from the spec: [isValidRange] of common/utils, which is not
    among the sources.  The spec gives a range the invariant start < end. *)
Definition isValidRange (r : Range) : bool := start r <? end_ r.

(** Modelled from the spec: [isValidTransaction] of common/utils.  The spec
    asks of a well-formed transaction that range.start < range.end and that
    its predicate reference is present. *)
Definition isValidTransaction (tx : Transaction) : bool :=
  isValidRange (txRange tx) && bool_decide (is_Some (txPredicate tx)).

(** Modelled from the spec: [isValidVerifiedStateUpdate] of common/utils.
    The spec asks that each returned update be well-formed, and a well-formed
    update has a range, with the invariant of ranges. *)
Definition isValidVerifiedStateUpdate (vu : VerifiedStateUpdate) : bool :=
  isValidRange (range (stateUpdate vu)).

(** *** executeTransaction *)

Section ExecuteTransaction.

(** The objects predicates return: [heap r tr] is what the object with
    identity [r] holds once the calls of [tr] have been made.  A collaborator
    may write to an object it returned earlier, so the content depends on the
    calls made so far.  The transaction and the verified updates of the
    store's answer are the values the call was given. *)
Variable heap : ref -> Trace -> StateUpdate.

Variable this : DefaultStateManager.

Definition awaitGetVerifiedStateUpdates (s e : Z)
  : M Trace Error (list VerifiedStateUpdate) :=
  fun tr =>
    (tr ++ [GetVerifiedStateUpdates s e],
     match getVerifiedStateUpdates (stateDB this) tr s e with
     | Some vus => Return vus
     | None => Throw StateDBFailure
     end).

Definition awaitGetPlugin (address : string) : M Trace Error PredicatePlugin :=
  fun tr =>
    (tr ++ [GetPlugin address],
     match getPlugin (pluginManager this) tr address with
     | Some p => Return p
     | None => Throw UnknownPredicate
     end).

Definition awaitExecuteStateTransition (p : PredicatePlugin)
    (su : StateUpdate) (blockNumber : number) (tx : Transaction)
  : M Trace Error ref :=
  fun tr =>
    (tr ++ [ExecuteStateTransition su blockNumber tx],
     match executeStateTransition p tr su blockNumber tx with
     | Some r => Return r
     | None => Throw PredicateFailure
     end).

(** [computedState.plasmaBlockNumber]: a read of the object as it is now. *)
Definition readPlasmaBlockNumber (computedState : ref) : M Trace Error number :=
  fun tr => (tr, Return (plasmaBlockNumber (heap computedState tr))).

(** The sub-range pushed onto [validRanges] (lines 97-100). *)
Definition validRange (tx : Transaction) (vu : VerifiedStateUpdate) : Range :=
  {| start := BigNum_max (start (txRange tx)) (start (range (stateUpdate vu)));
     end_ := BigNum_min (end_ (txRange tx)) (end_ (range (stateUpdate vu))) |}.

(** The body of the [for ... of verifiedUpdates] loop (lines 55-112).  The
    block numbers are JavaScript numbers, and the candidate's number is read
    from the object the predicate returned when line 87 is reached, that is
    once the two awaited calls of the pass have been made. *)
Definition loopBody (transaction : Transaction) (result : Result)
    (verifiedUpdate : VerifiedStateUpdate) : M Trace Error Result :=
  if negb (isValidVerifiedStateUpdate verifiedUpdate) then
    throw InvalidVerifiedUpdate
  else
    let start := start (txRange transaction) in
    let end_ := end_ (txRange transaction) in
    let verifiedStart := StateManager.start (range (stateUpdate verifiedUpdate)) in
    let verifiedEnd := StateManager.end_ (range (stateUpdate verifiedUpdate)) in
    if lte verifiedEnd start || gte verifiedStart end_ then
      throw RangeMismatch
    else
      let* predicatePlugin :=
        awaitGetPlugin (predicate (stateObject (stateUpdate verifiedUpdate))) in
      let* computedState :=
        awaitExecuteStateTransition predicatePlugin
          (stateUpdate verifiedUpdate) (verifiedBlockNumber verifiedUpdate)
          transaction in
      let* computedBlockNumber := readPlasmaBlockNumber computedState in
      if strictNe computedBlockNumber
           (verifiedBlockNumber verifiedUpdate + PrimFloat.one)%float then
        throw BlockNumberMismatch
      else
        let pushed := validRanges result ++ [validRange transaction verifiedUpdate] in
        match resultStateUpdate result with
        | None =>
            ret {| resultStateUpdate := Some computedState;
                   validRanges := pushed |}
        | Some previous =>
            if negb (strictEq previous computedState) then
              throw InconsistentTransition
            else
              ret {| resultStateUpdate := Some previous;
                     validRanges := pushed |}
        end.

Definition emptyResult : Result :=
  {| resultStateUpdate := None; validRanges := [] |}.

Definition executeTransaction (transaction : Transaction)
  : M Trace Error Result :=
  if negb (isValidTransaction transaction) then
    throw InvalidTransaction
  else
    let* verifiedUpdates :=
      awaitGetVerifiedStateUpdates (start (txRange transaction))
                                   (end_ (txRange transaction)) in
    forOf (loopBody transaction) verifiedUpdates emptyResult.

End ExecuteTransaction.

(** *** Predicates on ranges used in the statements *)

(** Two half-open intervals share no point. *)
Definition disjoint (a b : Range) : bool :=
  (end_ a <=? start b) || (end_ b <=? start a).

Fixpoint pairwiseDisjoint (rs : list Range) : bool :=
  match rs with
  | [] => true
  | r :: rs' => forallb (disjoint r) rs' && pairwiseDisjoint rs'
  end.

(** The test of line 69: the update's range misses the transaction's. *)
Definition outside (tx : Transaction) (vu : VerifiedStateUpdate) : bool :=
  lte (end_ (range (stateUpdate vu))) (start (txRange tx))
  || gte (start (range (stateUpdate vu))) (end_ (txRange tx)).

(** [r] is not empty and lies inside [outer]. *)
Definition nonEmptyWithin (outer r : Range) : Prop :=
  start outer <= start r /\ start r < end_ r /\ end_ r <= end_ outer.

(** [r] is the intersection the spec writes
    [max(tx.start, update.start), min(tx.end, update.end)). *)
Definition isOverlapOf (tx : Transaction) (r : Range) (vu : VerifiedStateUpdate)
  : Prop :=
  start r = Z.max (start (txRange tx)) (start (range (stateUpdate vu)))
  /\ end_ r = Z.min (end_ (txRange tx)) (end_ (range (stateUpdate vu))).

(** The two calls the loop body makes for an update it transitions. *)
Definition stepEvents (tx : Transaction) (vu : VerifiedStateUpdate) : Trace :=
  [GetPlugin (predicate (stateObject (stateUpdate vu)));
   ExecuteStateTransition (stateUpdate vu) (verifiedBlockNumber vu) tx].

(** What lines 97-111 make of a candidate whose block number was accepted. *)
Definition merged (tx : Transaction) (result : Result)
    (vu : VerifiedStateUpdate) (candidate : ref) : Outcome Error Result :=
  let pushed := validRanges result ++ [validRange tx vu] in
  match resultStateUpdate result with
  | None => Return {| resultStateUpdate := Some candidate; validRanges := pushed |}
  | Some previous =>
      if strictEq previous candidate
      then Return {| resultStateUpdate := Some previous; validRanges := pushed |}
      else Throw InconsistentTransition
  end.

(** The test of lines 86-89 on the candidate as it is once the calls of
    [tr] have been made: its block number [!==] verifiedBlockNumber + 1. *)
Definition blockNumberRefused (heap : ref -> Trace -> StateUpdate)
    (candidate : ref) (tr : Trace) (vu : VerifiedStateUpdate) : bool :=
  strictNe (plasmaBlockNumber (heap candidate tr))
           (verifiedBlockNumber vu + PrimFloat.one)%float.

(** *** Block numbers that are integers *)

(** The JavaScript number for a natural number below 2^63: the nearest
    double, which is the number itself up to 2^53. *)
Definition jsNumber (n : Z) : number := PrimFloat.of_uint63 (Uint63.of_Z n).


(** The double that is the integer [n], for [0 <= n < 2^53]: a mantissa of
    53 bits and the exponent that goes with it. *)
Definition ofInteger (n : Z) : SpecFloat.spec_float :=
  match n with
  | Zpos p =>
      SpecFloat.S754_finite false
        (Z.to_pos (Zpos p * 2 ^ (53 - Zpos (SpecFloat.digits2_pos p))))
        (Zpos (SpecFloat.digits2_pos p) - 53)
  | _ => SpecFloat.S754_zero false
  end.

(** *** Scenarios *)

Module Scenario.

(** Block numbers are given as integers and held as JavaScript numbers. *)
Definition update (s e blockNumber : Z) : StateUpdate :=
  {| range := {| start := s; end_ := e |};
     stateObject := {| predicate := "0xpredicate"; parameters := "" |};
     plasmaBlockNumber := jsNumber blockNumber |}.

Definition verified (s e verifiedBlock : Z) : VerifiedStateUpdate :=
  {| stateUpdate := update s e verifiedBlock;
     verifiedBlockNumber := jsNumber verifiedBlock |}.

Definition transaction (s e : Z) : Transaction :=
  {| txRange := {| start := s; end_ := e |};
     txPredicate := Some "0xpredicate"%string;
     body := "" |}.

(** A state manager whose store answers [vus] and whose plugin manager
    always finds [plugin]. *)
Definition manager (vus : list VerifiedStateUpdate) (plugin : PredicatePlugin)
  : DefaultStateManager :=
  {| stateDB := {| getVerifiedStateUpdates := fun _ _ _ => Some vus |};
     pluginManager := {| getPlugin := fun _ _ => Some plugin |} |}.

(** A plugin that returns the same object at every call. *)
Definition sameObject (r : ref) : PredicatePlugin :=
  {| executeStateTransition := fun _ _ _ _ => Some r |}.

(** A plugin that returns a new object at every call: the identity of the
    object is the number of calls made so far. *)
Definition freshObject : PredicatePlugin :=
  {| executeStateTransition := fun tr _ _ _ => Some (List.length tr) |}.

(** A store of objects that all hold the same state update, at all times. *)
Definition allEqual (su : StateUpdate) : ref -> Trace -> StateUpdate :=
  fun _ _ => su.

(** A plugin that keeps one object and returns it at every call, after
    writing into it the block number that follows the one it is called with:
    [keptObject] is what the object holds after the calls of a trace. *)
Definition keptObject (su : StateUpdate) : ref -> Trace -> StateUpdate :=
  fun _ tr =>
    match last tr with
    | Some (ExecuteStateTransition _ blockNumber _) =>
        {| range := range su;
           stateObject := stateObject su;
           plasmaBlockNumber := (blockNumber + PrimFloat.one)%float |}
    | _ => su
    end.

(** The trace once the store has been asked for the range [s, e). *)
Definition asked (s e : Z) : Trace := [GetVerifiedStateUpdates s e].

End Scenario.

End StateManager.

(** ** The Web3 handler of the rollup full node *)

Module Web3.

(** *** Values and requests *)

(** Values of type [any]: request parameters, provider responses. *)
Unset Elimination Schemes.
Inductive JsValue :=
| JUndefined
| JString (s : string)
| JObject (fields : list (string * JsValue))
| JArray (items : list JsValue).
Set Elimination Schemes.

(** [obj[key]]: [undefined] when the key is absent. *)
Fixpoint lookupField (fields : list (string * JsValue)) (key : string) : JsValue :=
  match fields with
  | [] => JUndefined
  | (k, v) :: rest => if String.eqb k key then v else lookupField rest key
  end.

Definition getField (obj : JsValue) (key : string) : JsValue :=
  match obj with
  | JObject fields => lookupField fields key
  | _ => JUndefined
  end.

(** [obj.key = v]: an existing key keeps its place, a new one comes last. *)
Fixpoint setField (fields : list (string * JsValue)) (key : string)
    (v : JsValue) : list (string * JsValue) :=
  match fields with
  | [] => [(key, v)]
  | (k, x) :: rest =>
      if String.eqb k key then (k, v) :: rest
      else (k, x) :: setField rest key v
  end.

(** The members of the enum [Web3RpcMethods] (../types). *)
Module Web3RpcMethods.
Inductive t :=
| blockNumber
| call
| estimateGas
| gasPrice
| getCode
| getExecutionManagerAddress
| getTransactionCount
| getTransactionReceipt
| sendRawTransaction
| networkVersion.
End Web3RpcMethods.

(** The transaction [utils.parseTransaction] decodes, as far as the handler
    reads it; [to] is [null] for a contract creation. *)
Module OvmTx.
Record t := { to : option string; data : string; gasLimit : Z }.
End OvmTx.

(** The object literal built in [ovmTxToInternalTx] and handed to
    [wallet.sign]. *)
Module InternalTx.
Record t := {
  nonce : Z;
  gasPrice : Z;
  gasLimit : Z;
  to : string;
  value : Z;
  data : string
}.
End InternalTx.

(** What [convertInternalLogsToOvmLogs] (package ovm) returns. *)
Record OvmLogs := {
  ovmLogs : JsValue;
  ovmEntrypoint : JsValue;
  ovmCreatedContractAddress : JsValue
}.

Inductive Error :=
| InvalidParametersError
| UnsupportedMethodError
| HashMismatch              (* the [throw Error(msg)] of sendRawTransaction *)
| UnsupportedBlockTag       (* the [throw] of getCode *)
| TypeError                 (* a value that is not of its declared type *)
| ParseFailure              (* utils.parseTransaction threw *)
| WalletFailure             (* the wallet rejected *)
| MappingPersistError       (* the mapping write was rejected *)
| ExecutionManagerFailure   (* a read of the execution manager was rejected *)
| UnderlyingLedgerError.    (* provider.send rejected *)

(** *** The world outside the handler *)

(** The handler acts on the ledger behind its provider: the hash mapping held
    in the execution manager's storage, and the requests the provider has been
    sent, oldest first. *)
Record World := {
  hashMapping : gmap string string;
  sent : list (Web3RpcMethods.t * JsValue)
}.

(** The three private fields of the handler.  What they answer depends on the
    world at the time of the call; [None] is a rejected promise. *)
Module Web3Provider.
Record t := { send : World -> Web3RpcMethods.t -> JsValue -> option JsValue }.
End Web3Provider.

Module Wallet.
Record t := {
  getTransactionCount : World -> option Z;
  sign : InternalTx.t -> option string
}.
End Wallet.

(** The execution manager contract.  [mapOvmTransactionHashToInternalTransactionHash]
    tells whether the write of a pair is accepted in a given world. *)
Module Contract.
Record t := {
  address : string;
  mapOvmTransactionHashToInternalTransactionHash : World -> string -> string -> bool;
  getInternalTransactionHash : World -> string -> option string;
  getCodeContractAddress : World -> string -> option string
}.
End Contract.

(** What the handler imports and the sources do not define: [remove0x],
    [add0x] and [ZERO_ADDRESS] of core-utils, [keccak256] and
    [parseTransaction] of ethers, [convertInternalLogsToOvmLogs] of ovm,
    [executeCallMethodId] for
    [ethereumjsAbi.methodID('executeCall', []).toString('hex')], and
    [rpcName] for the string of each member of [Web3RpcMethods]. *)
Record Imports := {
  remove0x : string -> string;
  add0x : string -> string;
  ZERO_ADDRESS : string;
  keccak256 : string -> string;
  parseTransaction : string -> option OvmTx.t;
  convertInternalLogsToOvmLogs : Contract.t -> JsValue -> OvmLogs;
  executeCallMethodId : string;
  rpcName : Web3RpcMethods.t -> string
}.

Definition latestBlock : string := "latest".

(** [s.repeat(n)]. *)
Fixpoint repeatString (s : string) (n : nat) : string :=
  match n with
  | O => EmptyString
  | S n' => s +:+ repeatString s n'
  end.

(** A value used at type [string]: the method bodies are typed, and a value
    of another type stops them. *)
Definition expectString (v : JsValue) : M World Error string :=
  match v with
  | JString s => ret s
  | _ => throw TypeError
  end.

(** *** The interface [Web3Handler] (../types) *)

Class Web3Handler (H : Type) := {
  blockNumber : H -> M World Error JsValue;
  call : H -> JsValue -> JsValue -> M World Error JsValue;
  estimateGas : H -> JsValue -> JsValue -> M World Error JsValue;
  gasPrice : H -> M World Error JsValue;
  getCode : H -> JsValue -> JsValue -> M World Error JsValue;
  getExecutionManagerAddress : H -> M World Error JsValue;
  getTransactionCount : H -> JsValue -> JsValue -> M World Error JsValue;
  getTransactionReceipt : H -> JsValue -> M World Error JsValue;
  sendRawTransaction : H -> JsValue -> M World Error JsValue;
  networkVersion : H -> M World Error JsValue
}.

(** *** Dispatch *)

Section Dispatch.

Variable lib : Imports.

(** [assertParameters]: [params] may be [null] or [undefined] ([None]); an
    omitted [defaultLast] is [undefined]. *)
Definition assertParameters (params : option (list JsValue)) (expected : Z)
    (defaultLast : JsValue) : M World Error (list JsValue) :=
  match params with
  | None =>
      if expected =? 0 then ret [] else throw InvalidParametersError
  | Some ps =>
      let len := Z.of_nat (List.length ps) in
      if (len =? expected - 1) || (len =? expected) then
        ret (if len =? expected then ps else ps ++ [defaultLast])
      else throw InvalidParametersError
  end.

(** [args[i]]. *)
Definition arg (args : list JsValue) (i : nat) : JsValue := nth i args JUndefined.

Context {H : Type} {implementation : Web3Handler H}.

(** [handleRequest]: the [switch] compares [method] with the string of each
    member in the order of the [case]s. *)
Definition handleRequest (this : H) (method : string)
    (params : option (list JsValue)) : M World Error JsValue :=
  if String.eqb method (rpcName lib Web3RpcMethods.blockNumber) then
    let* _ := assertParameters params 0 JUndefined in
    blockNumber this
  else if String.eqb method (rpcName lib Web3RpcMethods.call) then
    let* args := assertParameters params 2 (JString latestBlock) in
    call this (arg args 0) (arg args 1)
  else if String.eqb method (rpcName lib Web3RpcMethods.estimateGas) then
    let* args := assertParameters params 2 (JString latestBlock) in
    estimateGas this (arg args 0) (arg args 1)
  else if String.eqb method (rpcName lib Web3RpcMethods.gasPrice) then
    let* _ := assertParameters params 0 JUndefined in
    gasPrice this
  else if String.eqb method (rpcName lib Web3RpcMethods.getCode) then
    let* args := assertParameters params 2 (JString latestBlock) in
    getCode this (arg args 0) (arg args 1)
  else if String.eqb method (rpcName lib Web3RpcMethods.getExecutionManagerAddress) then
    let* _ := assertParameters params 0 JUndefined in
    getExecutionManagerAddress this
  else if String.eqb method (rpcName lib Web3RpcMethods.getTransactionCount) then
    let* args := assertParameters params 2 (JString latestBlock) in
    getTransactionCount this (arg args 0) (arg args 1)
  else if String.eqb method (rpcName lib Web3RpcMethods.getTransactionReceipt) then
    let* args := assertParameters params 1 JUndefined in
    getTransactionReceipt this (arg args 0)
  else if String.eqb method (rpcName lib Web3RpcMethods.sendRawTransaction) then
    let* args := assertParameters params 1 JUndefined in
    sendRawTransaction this (arg args 0)
  else if String.eqb method (rpcName lib Web3RpcMethods.networkVersion) then
    let* _ := assertParameters params 0 JUndefined in
    networkVersion this
  else
    throw UnsupportedMethodError.

End Dispatch.

(** *** DefaultWeb3Handler *)

Module DefaultWeb3Handler.

Record t := {
  provider : Web3Provider.t;
  wallet : Wallet.t;
  executionManager : Contract.t
}.

Section Methods.

Variable lib : Imports.
Variable this : t.

(** [await this.provider.send(method, params)]. *)
Definition providerSend (method : Web3RpcMethods.t) (params : JsValue)
  : M World Error JsValue :=
  fun w =>
    ({| hashMapping := hashMapping w; sent := sent w ++ [(method, params)] |},
     match Web3Provider.send (provider this) w method params with
     | Some response => Return response
     | None => Throw UnderlyingLedgerError
     end).

(** [getExecutionMgrTxData]: the calldata for the execution manager, a hex
    string with two characters to the byte. *)
Definition getExecutionMgrTxData (ovmEntrypoint ovmCalldata : string) : string :=
  let methodId := executeCallMethodId lib in
  let timestamp := repeatString "00" 32 in
  let origin := repeatString "00" 32 in
  let encodedEntrypoint := repeatString "00" 12 +:+ remove0x lib ovmEntrypoint in
  "0x" +:+ methodId +:+ timestamp +:+ origin +:+ encodedEntrypoint
       +:+ remove0x lib ovmCalldata.

(** The object [{from: ZERO_ADDRESS, to: executionManager.address, data}]. *)
Definition internalCall (internalCalldata : string) : JsValue :=
  JObject [("from"%string, JString (ZERO_ADDRESS lib));
           ("to"%string, JString (Contract.address (executionManager this)));
           ("data"%string, JString internalCalldata)].

Definition blockNumber : M World Error JsValue :=
  providerSend Web3RpcMethods.blockNumber (JArray []).

Definition call (txObject defaultBlock : JsValue) : M World Error JsValue :=
  let* to := expectString (getField txObject "to") in
  let* data := expectString (getField txObject "data") in
  let internalCalldata := getExecutionMgrTxData to data in
  providerSend Web3RpcMethods.call
    (JArray [internalCall internalCalldata; defaultBlock]).

Definition estimateGas (txObject defaultBlock : JsValue) : M World Error JsValue :=
  let* to := expectString (getField txObject "to") in
  let* data := expectString (getField txObject "data") in
  let internalCalldata := getExecutionMgrTxData to data in
  providerSend Web3RpcMethods.estimateGas
    (JArray [internalCall internalCalldata]).

Definition gasPrice : M World Error JsValue := ret (JString "0x0").

Definition getCode (address defaultBlock : JsValue) : M World Error JsValue :=
  match defaultBlock with
  | JString tag =>
      if negb (String.eqb tag "latest") then throw UnsupportedBlockTag
      else
        let* ovmAddress := expectString address in
        let* codeContractAddress :=
          (fun w =>
             (w, match Contract.getCodeContractAddress (executionManager this) w ovmAddress with
                 | Some a => Return a
                 | None => Throw ExecutionManagerFailure
                 end)) in
        providerSend Web3RpcMethods.getCode
          (JArray [JString codeContractAddress; JString "latest"])
  | _ => throw UnsupportedBlockTag
  end.

Definition getExecutionManagerAddress : M World Error JsValue :=
  ret (JString (Contract.address (executionManager this))).

Definition getTransactionCount (address defaultBlock : JsValue)
  : M World Error JsValue :=
  providerSend Web3RpcMethods.getTransactionCount (JArray [address; defaultBlock]).

Definition networkVersion : M World Error JsValue :=
  providerSend Web3RpcMethods.networkVersion (JArray []).

(** [mapOvmTxHashToInternalTxHash]: an accepted write stores the pair in the
    execution manager; a rejected one throws and stores nothing. *)
Definition mapOvmTxHashToInternalTxHash (ovmTxHash internalTxHash : string)
  : M World Error unit :=
  fun w =>
    if Contract.mapOvmTransactionHashToInternalTransactionHash
         (executionManager this) w (add0x lib ovmTxHash) (add0x lib internalTxHash)
    then
      ({| hashMapping := <[add0x lib ovmTxHash := add0x lib internalTxHash]> (hashMapping w);
          sent := sent w |},
       Return tt)
    else (w, Throw MappingPersistError).

Definition getInternalTxHash (ovmTxHash : string) : M World Error string :=
  fun w =>
    (w, match Contract.getInternalTransactionHash (executionManager this) w
                (add0x lib ovmTxHash) with
        | Some h => Return h
        | None => Throw ExecutionManagerFailure
        end).

(** [ovmTxToInternalTx]: the signed internal transaction for a raw OVM one. *)
Definition ovmTxToInternalTx (rawOvmTx : string) : M World Error string :=
  match parseTransaction lib rawOvmTx with
  | None => throw ParseFailure
  | Some ovmTx =>
      let* count :=
        (fun w =>
           (w, match Wallet.getTransactionCount (wallet this) w with
               | Some n => Return n
               | None => Throw WalletFailure
               end)) in
      let nonce := count + 1 in
      let ovmEntrypoint :=
        match OvmTx.to ovmTx with
        | None => ZERO_ADDRESS lib
        | Some a => a
        end in
      let internalCalldata := getExecutionMgrTxData ovmEntrypoint (OvmTx.data ovmTx) in
      let internalTx :=
        {| InternalTx.nonce := nonce;
           InternalTx.gasPrice := 0;
           InternalTx.gasLimit := OvmTx.gasLimit ovmTx;
           InternalTx.to := Contract.address (executionManager this);
           InternalTx.value := 0;
           InternalTx.data := internalCalldata |} in
      match Wallet.sign (wallet this) internalTx with
      | Some signed => ret signed
      | None => throw WalletFailure
      end
  end.

(** [internalTxReceiptToOvmTxReceipt]. *)
Definition internalTxReceiptToOvmTxReceipt (internalTxReceipt : JsValue)
  : M World Error JsValue :=
  match internalTxReceipt with
  | JObject fields =>
      let convertedOvmLogs :=
        convertInternalLogsToOvmLogs lib (executionManager this)
          (lookupField fields "logs") in
      let fields := setField fields "logs" (ovmLogs convertedOvmLogs) in
      let fields := setField fields "to" (ovmEntrypoint convertedOvmLogs) in
      let fields := setField fields "from" (JString (ZERO_ADDRESS lib)) in
      let fields :=
        setField fields "contractAddress" (ovmCreatedContractAddress convertedOvmLogs) in
      ret (JObject fields)
  | _ => throw TypeError
  end.

Definition getTransactionReceipt (ovmTxHash : JsValue) : M World Error JsValue :=
  let* hash := expectString ovmTxHash in
  let* internalTxHash := getInternalTxHash hash in
  let* internalTxReceipt :=
    providerSend Web3RpcMethods.getTransactionReceipt
      (JArray [JString internalTxHash]) in
  internalTxReceiptToOvmTxReceipt internalTxReceipt.

(** [sendRawTransaction] on a raw OVM transaction (a string). *)
Definition sendRawTransactionString (rawOvmTx : string) : M World Error string :=
  let* internalTx := ovmTxToInternalTx rawOvmTx in
  let ovmTxHash := keccak256 lib rawOvmTx in
  let internalTxHash := keccak256 lib internalTx in
  let* _ := mapOvmTxHashToInternalTxHash ovmTxHash internalTxHash in
  let* response :=
    providerSend Web3RpcMethods.sendRawTransaction (JString internalTx) in
  let* returnedInternalTxHash := expectString response in
  if negb (String.eqb (remove0x lib internalTxHash)
                      (remove0x lib returnedInternalTxHash)) then
    throw HashMismatch
  else
    ret ovmTxHash.

Definition sendRawTransaction (rawOvmTx : JsValue) : M World Error JsValue :=
  let* raw := expectString rawOvmTx in
  let* ovmTxHash := sendRawTransactionString raw in
  ret (JString ovmTxHash).

End Methods.

#[export] Instance implementsWeb3Handler (lib : Imports) : Web3Handler t := {|
  Web3.blockNumber := blockNumber;
  Web3.call := call lib;
  Web3.estimateGas := estimateGas lib;
  Web3.gasPrice := fun _ => gasPrice;
  Web3.getCode := getCode;
  Web3.getExecutionManagerAddress := getExecutionManagerAddress;
  Web3.getTransactionCount := getTransactionCount;
  Web3.getTransactionReceipt := getTransactionReceipt lib;
  Web3.sendRawTransaction := sendRawTransaction lib;
  Web3.networkVersion := networkVersion
|}.

(** [handleRequest] of the class. *)
Definition handleRequest (lib : Imports) (this : t) (method : string)
    (params : option (list JsValue)) : M World Error JsValue :=
  Web3.handleRequest lib (implementation := implementsWeb3Handler lib)
    this method params.

End DefaultWeb3Handler.

(** *** The wire layout of the execution manager's calldata *)

(** Modelled from the spec: the decoder of the packed calldata is the
    execution manager contract, which is not among the sources.  The spec
    fixes the layout: methodSelector("executeCall") || 32-byte timestamp ||
    32-byte queueOrigin || 32-byte zero-padded rollup target address ||
    original calldata.  In the hex string the selector takes 8 characters
    after the leading 0x and each 32-byte word 64 characters; the address is
    the last 20 bytes of its word. *)
Record Unpacked := {
  selector : string;
  timestamp : string;
  queueOrigin : string;
  entrypoint : string;
  calldata : string
}.

Definition restFrom (n : nat) (s : string) : string :=
  substring n (String.length s - n) s.

Definition unpackCalldata (packed : string) : Unpacked :=
  {| selector := substring 2 8 packed;
     timestamp := substring 10 64 packed;
     queueOrigin := substring 74 64 packed;
     entrypoint := substring 162 40 packed;
     calldata := restFrom 202 packed |}.

(** Modelled from the spec: the packing the spec describes, which takes a
    timestamp and a queue origin (hex strings without 0x) besides the 20-byte
    entrypoint and the calldata. *)
Definition packCalldata (selector timestamp queueOrigin entrypoint calldata : string)
  : string :=
  "0x" +:+ selector +:+ timestamp +:+ queueOrigin
       +:+ repeatString "00" 12 +:+ entrypoint +:+ calldata.

(** The world once [sendRawTransaction] has stored the pair of hashes of a
    raw OVM transaction and submitted its internal transaction. *)
Definition submitted (lib : Imports) (w : World) (rawOvmTx internalTx : string)
  : World :=
  {| hashMapping :=
       <[add0x lib (keccak256 lib rawOvmTx) := add0x lib (keccak256 lib internalTx)]>
         (hashMapping w);
     sent := sent w ++ [(Web3RpcMethods.sendRawTransaction, JString internalTx)] |}.

(** The calldata carries a zero timestamp and a zero queue origin. *)
Definition zeroContext (packed : string) : Prop :=
  timestamp (unpackCalldata packed) = repeatString "00" 32
  /\ queueOrigin (unpackCalldata packed) = repeatString "00" 32.

(** *** The [case]s of [handleRequest], as tables *)

(** The members in the order of the [case]s. *)
Definition cases : list Web3RpcMethods.t :=
  [Web3RpcMethods.blockNumber; Web3RpcMethods.call; Web3RpcMethods.estimateGas;
   Web3RpcMethods.gasPrice; Web3RpcMethods.getCode;
   Web3RpcMethods.getExecutionManagerAddress; Web3RpcMethods.getTransactionCount;
   Web3RpcMethods.getTransactionReceipt; Web3RpcMethods.sendRawTransaction;
   Web3RpcMethods.networkVersion].

(** The [case] a method name selects: the first whose string it equals. *)
Definition resolve (lib : Imports) (method : string) : option Web3RpcMethods.t :=
  List.find (fun m => String.eqb method (rpcName lib m)) cases.

(** The [expected] count each [case] passes to [assertParameters]. *)
Definition expectedArity (m : Web3RpcMethods.t) : Z :=
  match m with
  | Web3RpcMethods.blockNumber | Web3RpcMethods.gasPrice
  | Web3RpcMethods.getExecutionManagerAddress | Web3RpcMethods.networkVersion => 0
  | Web3RpcMethods.getTransactionReceipt | Web3RpcMethods.sendRawTransaction => 1
  | Web3RpcMethods.call | Web3RpcMethods.estimateGas | Web3RpcMethods.getCode
  | Web3RpcMethods.getTransactionCount => 2
  end.

(** The [case]s that pass [latestBlock] as [defaultLast]. *)
Definition takesDefaultBlock (m : Web3RpcMethods.t) : bool :=
  match m with
  | Web3RpcMethods.call | Web3RpcMethods.estimateGas | Web3RpcMethods.getCode
  | Web3RpcMethods.getTransactionCount => true
  | _ => false
  end.

Definition defaultLast (m : Web3RpcMethods.t) : JsValue :=
  if takesDefaultBlock m then JString latestBlock else JUndefined.

(** The method each [case] executes on the checked arguments. *)
Definition invoke {H : Type} `{Web3Handler H} (m : Web3RpcMethods.t) (this : H)
    (args : list JsValue) : M World Error JsValue :=
  match m with
  | Web3RpcMethods.blockNumber => blockNumber this
  | Web3RpcMethods.call => call this (arg args 0) (arg args 1)
  | Web3RpcMethods.estimateGas => estimateGas this (arg args 0) (arg args 1)
  | Web3RpcMethods.gasPrice => gasPrice this
  | Web3RpcMethods.getCode => getCode this (arg args 0) (arg args 1)
  | Web3RpcMethods.getExecutionManagerAddress => getExecutionManagerAddress this
  | Web3RpcMethods.getTransactionCount => getTransactionCount this (arg args 0) (arg args 1)
  | Web3RpcMethods.getTransactionReceipt => getTransactionReceipt this (arg args 0)
  | Web3RpcMethods.sendRawTransaction => sendRawTransaction this (arg args 0)
  | Web3RpcMethods.networkVersion => networkVersion this
  end.

(** The parameter counts [assertParameters] refuses for an expected count:
    no array at all unless none is expected, or a length that is neither the
    expected count nor one less. *)
Definition refused (params : option (list JsValue)) (expected : Z) : Prop :=
  match params with
  | None => expected <> 0
  | Some ps =>
      Z.of_nat (List.length ps) <> expected
      /\ Z.of_nat (List.length ps) <> expected - 1
  end.

(** *** Scenarios *)

Module Scenario.

(** Stand-ins for the imports, to run the handler on examples: [remove0x]
    drops a leading 0x and [add0x] puts one where there is none; the hash and
    the signature are tagged copies of their input, and the selector is a
    placeholder of four bytes. *)
Definition remove0x (s : string) : string :=
  if String.prefix "0x" s then restFrom 2 s else s.

Definition add0x (s : string) : string :=
  if String.prefix "0x" s then s else "0x" +:+ s.

(** Modelled from the spec: the strings of the enum [Web3RpcMethods], which
    is declared in ../types; the spec lists the method names of the RPC
    surface. *)
Definition rpcName (m : Web3RpcMethods.t) : string :=
  match m with
  | Web3RpcMethods.blockNumber => "eth_blockNumber"
  | Web3RpcMethods.call => "eth_call"
  | Web3RpcMethods.estimateGas => "eth_estimateGas"
  | Web3RpcMethods.gasPrice => "eth_gasPrice"
  | Web3RpcMethods.getCode => "eth_getCode"
  | Web3RpcMethods.getExecutionManagerAddress => "getExecutionManagerAddress"
  | Web3RpcMethods.getTransactionCount => "eth_getTransactionCount"
  | Web3RpcMethods.getTransactionReceipt => "eth_getTransactionReceipt"
  | Web3RpcMethods.sendRawTransaction => "eth_sendRawTransaction"
  | Web3RpcMethods.networkVersion => "net_version"
  end.

Definition ovmAddress : string := "0x" +:+ repeatString "a1" 20.

Definition lib : Imports :=
  {| Web3.remove0x := remove0x;
     Web3.add0x := add0x;
     ZERO_ADDRESS := "0x" +:+ repeatString "00" 20;
     keccak256 := fun s => "0xhash-of-" +:+ remove0x s;
     parseTransaction := fun raw =>
       if String.prefix "0x" raw
       then Some {| OvmTx.to := Some ovmAddress;
                    OvmTx.data := raw;
                    OvmTx.gasLimit := 21000 |}
       else None;
     convertInternalLogsToOvmLogs := fun _ logs =>
       {| ovmLogs := logs;
          ovmEntrypoint := JString ovmAddress;
          ovmCreatedContractAddress := JUndefined |};
     executeCallMethodId := "e1ec07e0";
     Web3.rpcName := rpcName |}.

(** A handler whose execution manager accepts the mapping write or not, and
    whose provider answers every request with [answer]. *)
Definition handler (acceptWrite : bool) (answer : string) : DefaultWeb3Handler.t :=
  {| DefaultWeb3Handler.provider :=
       {| Web3Provider.send := fun _ _ _ => Some (JString answer) |};
     DefaultWeb3Handler.wallet :=
       {| Wallet.getTransactionCount := fun _ => Some 0;
          Wallet.sign := fun itx => Some ("0xsigned-" +:+ remove0x (InternalTx.data itx)) |};
     DefaultWeb3Handler.executionManager :=
       {| Contract.address := "0x" +:+ repeatString "e0" 20;
          Contract.mapOvmTransactionHashToInternalTransactionHash :=
            fun _ _ _ => acceptWrite;
          Contract.getInternalTransactionHash := fun w h => hashMapping w !! h;
          Contract.getCodeContractAddress := fun _ a => Some a |} |}.

Definition emptyWorld : World := {| hashMapping := ∅; sent := [] |}.

Definition rawOvmTx : string := "0xf86b8001".

(** The signed internal transaction the handler builds for [rawOvmTx]. *)
Definition internalTx : string :=
  "0xsigned-" +:+ remove0x
    (DefaultWeb3Handler.getExecutionMgrTxData lib ovmAddress rawOvmTx).

End Scenario.

End Web3.

(** ** Utilities and the configuration manager of the core package *)

Module CoreUtils.

(** [bnMin]: [a.lt(b) ? a : b]. *)
Definition bnMin (a b : Z) : Z := if a <? b then a else b.

(** [bnMax]: [a.gt(b) ? a : b]. *)
Definition bnMax (a b : Z) : Z := if a >? b then a else b.

(** A value of type [any].  The utilities only tell strings from the rest
    ([typeof value === 'string']); [O] is the type of the values that are not
    strings: numbers, objects, [null], [undefined]. *)
Inductive Value (O : Type) : Type :=
| VString (s : string)
| VOther (o : O).

Arguments VString {O} s.
Arguments VOther {O} o.

(** The built-in [JSON] object.  [None] is a thrown error: [JSON.parse]
    throws on text that is not JSON, [JSON.stringify] on a value it cannot
    serialize.  [JSON.parse] turns its argument into a string first, so it
    applies to every value. *)
Record Builtins (O : Type) := {
  JSON_stringify : Value O -> option (Value O);
  JSON_parse : Value O -> option (Value O)
}.

Arguments JSON_stringify {O} _ _.
Arguments JSON_parse {O} _ _.

Inductive Error :=
| KeyNotFound          (* 'Key not found in configuration.' *)
| JsonError.           (* an error thrown by [JSON] *)

Section Utils.

Context {O : Type}.
Variable JSON : Builtins O.

(** [stringify]: a string is returned as it is, another value is
    serialized. *)
Definition stringify (value : Value O) : Outcome Error (Value O) :=
  match value with
  | VString _ => Return value
  | VOther _ =>
      match JSON_stringify JSON value with
      | Some text => Return text
      | None => Throw JsonError
      end
  end.

(** [isJson]: whether [JSON.parse] accepts the value; the [catch] turns the
    error into [false]. *)
Definition isJson (value : Value O) : bool :=
  match JSON_parse JSON value with
  | Some _ => true
  | None => false
  end.

(** [jsonify]: [isJson(value) ? JSON.parse(value) : value]. *)
Definition jsonify (value : Value O) : Outcome Error (Value O) :=
  if isJson value then
    match JSON_parse JSON value with
    | Some parsed => Return parsed
    | None => Throw JsonError
    end
  else Return value.

(** *** DefaultConfigManager: [db] is a [Map] from keys to stored values *)

Definition get (key : string) : M (gmap string (Value O)) Error (Value O) :=
  fun db =>
    match db !! key with
    | None => (db, Throw KeyNotFound)
    | Some value => (db, jsonify value)
    end.

Definition put (key : string) (value : Value O)
  : M (gmap string (Value O)) Error unit :=
  fun db =>
    match stringify value with
    | Return parsed => (<[key := parsed]> db, Return tt)
    | Throw e => (db, Throw e)
    end.

End Utils.

(** *** Scenarios *)

Module Scenario.

(** A small [JSON]: the values that are not strings are the booleans and
    [undefined] ([None]); the text of a boolean is its name, [undefined] has
    no text, and only those two names parse.  The utilities never serialize
    a string. *)
Definition toyJSON : Builtins (option bool) :=
  {| JSON_stringify := fun v =>
       match v with
       | VString s => Some (VString s)
       | VOther (Some true) => Some (VString "true")
       | VOther (Some false) => Some (VString "false")
       | VOther None => Some (VOther None)
       end;
     JSON_parse := fun v =>
       match v with
       | VString s =>
           if String.eqb s "true" then Some (VOther (Some true))
           else if String.eqb s "false" then Some (VOther (Some false))
           else None
       | VOther (Some b) => Some (VOther (Some b))
       | VOther None => None
       end |}.

End Scenario.

End CoreUtils.

(** ** What a computation of the handler does to the world *)

Module Web3Effects.

Import Web3.

(** The computation leaves the hash mapping as it found it. *)
Definition keepsMapping {A} (m : M World Error A) : Prop :=
  forall w, hashMapping (fst (m w)) = hashMapping w.

(** The computation only adds to the requests sent, and at most [n]. *)
Definition sendsAtMost {A} (n : nat) (m : M World Error A) : Prop :=
  forall w, exists new,
    sent (fst (m w)) = sent w ++ new /\ (List.length new <= n)%nat.

End Web3Effects.

(** ** Properties of the monad and of loops *)

Lemma bind_Return {S E A B} (m : M S E A) (k : A -> M S E B) s s' a :
  m s = (s', Return a) -> bind m k s = k a s'.
Proof. intros H. unfold bind. now rewrite H. Qed.

Lemma bind_Throw {S E A B} (m : M S E A) (k : A -> M S E B) s s' e :
  m s = (s', Throw e) -> bind m k s = (s', Throw e).
Proof. intros H. unfold bind. now rewrite H. Qed.

Lemma bind_Return_inv {S E A B} (m : M S E A) (k : A -> M S E B) s s' b :
  bind m k s = (s', Return b) ->
  exists s1 a, m s = (s1, Return a) /\ k a s1 = (s', Return b).
Proof.
  unfold bind. destruct (m s) as [s1 [e|a]]; intros H.
  - discriminate.
  - eauto.
Qed.

Lemma forOf_cons {S E A B} (body : B -> A -> M S E B) x xs acc :
  forOf body (x :: xs) acc = bind (body acc x) (forOf body xs).
Proof. reflexivity. Qed.

(** A loop over [xs ++ ys] runs the loop over [xs], and when that returns,
    the loop over [ys] from where it stopped. *)
Lemma forOf_app_Return {S E A B} (body : B -> A -> M S E B) xs ys acc s s' acc' :
  forOf body xs acc s = (s', Return acc') ->
  forOf body (xs ++ ys) acc s = forOf body ys acc' s'.
Proof.
  revert acc s. induction xs as [|x xs IH]; intros acc s H; simpl in *.
  - unfold ret in H. now inversion H.
  - apply bind_Return_inv in H as (s1 & a & H1 & H2).
    rewrite (bind_Return _ _ _ _ _ H1). now apply IH.
Qed.

(** ** JavaScript numbers that are integers

    Up to 2^53 the integers are doubles, and adding one to an integer below
    2^53 - 1 is exact: on such block numbers [!==] against
    verifiedBlockNumber + 1 is the comparison of integers. *)

Module Doubles.

Import SpecFloat.

Lemma digits2_pos_size p : digits2_pos p = Pos.size p.
Proof. induction p; simpl; congruence. Qed.

Lemma digits2_pos_log2 p : Zpos (digits2_pos p) = Z.log2 (Zpos p) + 1.
Proof.
  rewrite digits2_pos_size. destruct p; simpl; try lia.
Qed.

Lemma digits2_pos_bound p : Zpos p < 2 ^ 53 -> Zpos (digits2_pos p) <= 53.
Proof.
  intros H. rewrite digits2_pos_log2.
  assert (Z.log2 (Zpos p) < 53); [|lia].
  apply Z.log2_lt_pow2; lia.
Qed.

Lemma digits2_pos_shift p k :
  0 <= k -> Zpos (digits2_pos (Z.to_pos (Zpos p * 2 ^ k))) = Zpos (digits2_pos p) + k.
Proof.
  intros Hk. rewrite !digits2_pos_log2.
  assert (0 < 2 ^ k) by (apply Z.pow_pos_nonneg; lia).
  rewrite Z2Pos.id by nia.
  rewrite Z.log2_mul_pow2 by lia. lia.
Qed.

Lemma iter_xO_value m d : Zpos (Pos.iter xO m d) = Zpos m * 2 ^ Zpos d.
Proof.
  induction d using Pos.peano_ind.
  - simpl. lia.
  - rewrite Pos.iter_succ, Pos2Z.inj_succ, Z.pow_succ_r by lia.
    rewrite Pos2Z.inj_xO, IHd. lia.
Qed.

Lemma iter_xO_to_pos m d : Pos.iter xO m d = Z.to_pos (Zpos m * 2 ^ Zpos d).
Proof. rewrite <- iter_xO_value. reflexivity. Qed.

Lemma iter_pos_nat {A} (f : A -> A) p x :
  iter_pos f p x = Nat.iter (Pos.to_nat p) f x.
Proof.
  revert x. induction p as [p IH|p IH|]; intros x; cbn [iter_pos].
  - rewrite !IH, Pos2Nat.inj_xI, <- Nat.iter_succ_r, <- Nat.iter_add.
    f_equal. lia.
  - rewrite !IH, Pos2Nat.inj_xO, <- Nat.iter_add. f_equal. lia.
  - reflexivity.
Qed.

Lemma shr_exact_nat q n :
  Nat.iter n shr_1
    {| shr_m := Zpos q * 2 ^ Z.of_nat n; shr_r := false; shr_s := false |}
  = {| shr_m := Zpos q; shr_r := false; shr_s := false |}.
Proof.
  revert q. induction n as [|n IH]; intros q.
  - simpl. f_equal. lia.
  - rewrite Nat.iter_succ_r.
    replace (Zpos q * 2 ^ Z.of_nat (S n)) with (Zpos (xO q) * 2 ^ Z.of_nat n).
    2:{ rewrite Nat2Z.inj_succ, Z.pow_succ_r by lia. lia. }
    assert (Hstep : forall k, shr_1 {| shr_m := Zpos q * 2 ^ Z.of_nat (S k); shr_r := false; shr_s := false |}
                         = {| shr_m := Zpos q * 2 ^ Z.of_nat k; shr_r := false; shr_s := false |}).
    { intros k. rewrite Nat2Z.inj_succ, Z.pow_succ_r by lia.
      assert (0 < 2 ^ Z.of_nat k) by (apply Z.pow_pos_nonneg; lia).
      destruct (2 ^ Z.of_nat k) as [|t|t] eqn:E; try lia.
      replace (Zpos q * (2 * Zpos t)) with (Zpos (xO (q * t))) by lia.
      simpl. f_equal. }
    replace (Zpos (xO q) * 2 ^ Z.of_nat n) with (Zpos q * 2 ^ Z.of_nat (S n)).
    2:{ rewrite Nat2Z.inj_succ, Z.pow_succ_r by lia. lia. }
    rewrite Hstep. apply IH.
Qed.

Lemma shr_exact q s :
  iter_pos shr_1 s {| shr_m := Zpos q * 2 ^ Zpos s; shr_r := false; shr_s := false |}
  = {| shr_m := Zpos q; shr_r := false; shr_s := false |}.
Proof.
  rewrite iter_pos_nat. rewrite <- (positive_nat_Z s). apply shr_exact_nat.
Qed.


Lemma fexp_small d : 1 <= d <= 53 -> fexp 53 1024 d = d - 53.
Proof. intros H. unfold fexp, emin. lia. Qed.

(** A mantissa of 53 digits at an exponent in range is kept as it is. *)
Lemma binary_round_aux_canonical m e :
  Zpos (digits2_pos m) = 53 -> -52 <= e <= 0 ->
  binary_round_aux 53 1024 false (Zpos m) e loc_Exact = S754_finite false m e.
Proof.
  intros Hd He.
  unfold binary_round_aux, shr_fexp.
  cbn [Zdigits2 shr_record_of_loc].
  rewrite Hd, fexp_small by lia.
  replace (53 + e - 53 - e) with 0 by lia.
  cbn [shr shr_m loc_of_shr_record round_nearest_even Zdigits2 shr_record_of_loc].
  rewrite Hd, fexp_small by lia.
  replace (53 + e - 53 - e) with 0 by lia.
  cbn [shr shr_m].
  replace (e <=? 1024 - 53) with true by (symmetry; apply Z.leb_le; lia).
  reflexivity.
Qed.

(** The integer [q * 2^k * 2^(-k)] rounds to the double of [q]. *)
Lemma binary_round_integer q k :
  Zpos q < 2 ^ 53 -> 0 <= k ->
  binary_round 53 1024 false (Z.to_pos (Zpos q * 2 ^ k)) (- k)
  = StateManager.ofInteger (Zpos q).
Proof.
  intros Hq Hk.
  pose proof (digits2_pos_bound q Hq) as Hd.
  assert (Hd1 : 1 <= Zpos (digits2_pos q)) by lia.
  set (d := Zpos (digits2_pos q)) in *.
  assert (Hpow : 0 < 2 ^ k) by (apply Z.pow_pos_nonneg; lia).
  assert (Hpow' : 0 < 2 ^ (53 - d)) by (apply Z.pow_pos_nonneg; lia).
  assert (Hcan : Zpos (digits2_pos (Z.to_pos (Zpos q * 2 ^ (53 - d)))) = 53).
  { rewrite digits2_pos_shift by lia. fold d. lia. }
  unfold binary_round, StateManager.ofInteger. fold d.
  rewrite digits2_pos_shift by lia. fold d.
  replace (d + k + - k) with d by lia.
  rewrite fexp_small by lia.
  unfold shl_align.
  destruct (d - 53 - - k) as [|s|s] eqn:Es.
  - (* already aligned *)
    assert (k = 53 - d) by lia. subst k.
    replace (- (53 - d)) with (d - 53) by lia.
    apply binary_round_aux_canonical; [exact Hcan | lia].
  - (* too many digits: the rounding shifts right, exactly *)
    unfold binary_round_aux, shr_fexp.
    cbn [Zdigits2 shr_record_of_loc].
    rewrite digits2_pos_shift by lia. fold d.
    replace (d + k + - k) with d by lia.
    rewrite fexp_small by lia. rewrite Es.
    cbn [shr].
    rewrite Z2Pos.id by nia.
    replace (Zpos q * 2 ^ k)
      with (Zpos (Z.to_pos (Zpos q * 2 ^ (53 - d))) * 2 ^ Zpos s).
    2:{ rewrite Z2Pos.id by nia. rewrite <- Z.mul_assoc, <- Z.pow_add_r by lia.
        f_equal. f_equal. lia. }
    rewrite shr_exact.
    cbn [shr_m loc_of_shr_record round_nearest_even Zdigits2 shr_record_of_loc].
    rewrite Hcan.
    replace (- k + Zpos s) with (d - 53) by lia.
    replace (53 + (d - 53)) with d by lia.
    rewrite fexp_small by lia.
    replace (d - 53 - (d - 53)) with 0 by lia.
    cbn [shr shr_m].
    replace (d - 53 <=? 1024 - 53) with true by (symmetry; apply Z.leb_le; lia).
    reflexivity.
  - (* too few digits: the mantissa is shifted left first *)
    rewrite iter_xO_to_pos.
    replace (Zpos (Z.to_pos (Zpos q * 2 ^ k)) * 2 ^ Zpos s)
      with (Zpos q * 2 ^ (53 - d)).
    2:{ rewrite Z2Pos.id by nia.
        rewrite <- Z.mul_assoc, <- Z.pow_add_r by lia. f_equal. f_equal. lia. }
    apply binary_round_aux_canonical; [exact Hcan | lia].
Qed.

Lemma binary_normalize_integer n k :
  0 <= n < 2 ^ 53 -> 0 <= k ->
  binary_normalize 53 1024 (n * 2 ^ k) (- k) false = StateManager.ofInteger n.
Proof.
  intros Hn Hk.
  assert (Hpow : 0 < 2 ^ k) by (apply Z.pow_pos_nonneg; lia).
  destruct n as [|q|q]; try lia.
  - reflexivity.
  - destruct (Zpos q * 2 ^ k) as [|m|m] eqn:E; try nia.
    cbn [binary_normalize].
    replace m with (Z.to_pos (Zpos q * 2 ^ k)) by (rewrite E; reflexivity).
    apply binary_round_integer; lia.
Qed.

Lemma Prim2SF_jsNumber n :
  0 <= n < 2 ^ 53 -> FloatOps.Prim2SF (StateManager.jsNumber n) = StateManager.ofInteger n.
Proof.
  intros Hn. unfold StateManager.jsNumber.
  rewrite FloatAxioms.of_uint63_spec, Uint63.of_Z_spec.
  rewrite Z.mod_small.
  2:{ split; [lia|]. apply Z.lt_trans with (2 ^ 53); [lia|]. reflexivity. }
  change FloatOps.prec with 53. change FloatOps.emax with 1024.
  replace n with (n * 2 ^ 0) at 1 by (rewrite Z.pow_0_r; lia).
  change 0 with (- 0) at 2.
  apply binary_normalize_integer; lia.
Qed.

Lemma fst_shl_align_integer q :
  Zpos q < 2 ^ 53 ->
  Zpos (fst (shl_align
               (Z.to_pos (Zpos q * 2 ^ (53 - Zpos (digits2_pos q))))
               (Zpos (digits2_pos q) - 53) (-52)))
  = Zpos q * 2 ^ 52.
Proof.
  intros Hq.
  pose proof (digits2_pos_bound q Hq) as Hd.
  set (d := Zpos (digits2_pos q)) in *.
  assert (Hd1 : 1 <= d) by (unfold d; lia).
  assert (Hpow' : 0 < 2 ^ (53 - d)) by (apply Z.pow_pos_nonneg; lia).
  unfold shl_align.
  destruct (-52 - (d - 53)) as [|s|s] eqn:Es; cbn [fst].
  - rewrite Z2Pos.id by nia. f_equal. f_equal. lia.
  - lia.
  - rewrite iter_xO_value, Z2Pos.id by nia.
    rewrite <- Z.mul_assoc, <- Z.pow_add_r by lia. f_equal. f_equal. lia.
Qed.

Lemma SFadd_integer_one b :
  0 <= b -> b + 1 < 2 ^ 53 ->
  SFadd 53 1024 (StateManager.ofInteger b) (S754_finite false 4503599627370496 (-52))
  = StateManager.ofInteger (b + 1).
Proof.
  intros Hb Hb1.
  destruct b as [|q|q]; try lia.
  - reflexivity.
  - cbn [StateManager.ofInteger SFadd cond_Zopp].
    pose proof (digits2_pos_bound q ltac:(lia)) as Hd.
    assert (Hd1 : 1 <= Zpos (digits2_pos q)) by lia.
    replace (Z.min (Zpos (digits2_pos q) - 53) (-52)) with (-52) by lia.
    rewrite fst_shl_align_integer by lia.
    change (Zpos (fst (shl_align 4503599627370496 (-52) (-52)))) with (2 ^ 52).
    replace (Zpos q * 2 ^ 52 + 2 ^ 52) with ((Zpos q + 1) * 2 ^ 52) by lia.
    change (-52) with (- 52).
    apply binary_normalize_integer; lia.
Qed.

Lemma ofInteger_inj a b :
  0 <= a < 2 ^ 53 -> 0 <= b < 2 ^ 53 ->
  SFeqb (StateManager.ofInteger a) (StateManager.ofInteger b) = (a =? b).
Proof.
  intros Ha Hb.
  destruct a as [|p|p], b as [|q|q]; try lia; try reflexivity.
  unfold SFeqb. cbn [StateManager.ofInteger SFcompare].
  pose proof (digits2_pos_bound p ltac:(lia)) as Hdp.
  pose proof (digits2_pos_bound q ltac:(lia)) as Hdq.
  set (dp := Zpos (digits2_pos p)) in *.
  set (dq := Zpos (digits2_pos q)) in *.
  assert (0 < 2 ^ (53 - dp)) by (apply Z.pow_pos_nonneg; lia).
  assert (0 < 2 ^ (53 - dq)) by (apply Z.pow_pos_nonneg; lia).
  destruct (Z.eqb_spec (Zpos p) (Zpos q)) as [E|N].
  - injection E as ->. subst dp dq. rewrite Z.compare_refl.
    change (Pos.compare_cont Eq ?x ?y) with (Pos.compare x y).
    rewrite Pos.compare_refl. reflexivity.
  - destruct (Z.compare_spec (dp - 53) (dq - 53)) as [E| |]; try reflexivity.
    assert (dp = dq) by lia.
    change (Pos.compare_cont Eq ?x ?y) with (Pos.compare x y).
    destruct (Pos.compare_spec (Z.to_pos (Zpos p * 2 ^ (53 - dp)))
                (Z.to_pos (Zpos q * 2 ^ (53 - dq)))) as [E'| |]; try reflexivity.
    exfalso. apply N.
    apply (f_equal Zpos) in E'. rewrite !Z2Pos.id in E' by nia.
    replace dq with dp in E' by lia. nia.
Qed.



(** On integers below 2^53, [a !== b + 1] is the test on the integers. *)
Lemma strictNe_jsNumber_succ a b :
  0 <= a < 2 ^ 53 -> 0 <= b -> b + 1 < 2 ^ 53 ->
  StateManager.strictNe (StateManager.jsNumber a)
    (StateManager.jsNumber b + PrimFloat.one)%float
  = negb (a =? b + 1).
Proof.
  intros Ha Hb Hb1. unfold StateManager.strictNe. f_equal.
  rewrite FloatAxioms.eqb_spec, FloatAxioms.add_spec.
  rewrite !Prim2SF_jsNumber by lia.
  change (FloatOps.Prim2SF PrimFloat.one)
    with (SpecFloat.S754_finite false 4503599627370496 (-52)).
  unfold FloatAxioms.SF64add.
  change FloatOps.prec with 53. change FloatOps.emax with 1024.
  rewrite SFadd_integer_one by lia.
  apply ofInteger_inj; lia.
Qed.

End Doubles.

(** ** The state manager: proofs *)

Module StateManagerProofs.

Import StateManager.

Ltac zbool :=
  repeat match goal with
  | H : negb _ = true |- _ => apply negb_true_iff in H
  | H : negb _ = false |- _ => apply negb_false_iff in H
  | H : (_ && _) = true |- _ => apply andb_true_iff in H as [? ?]
  | H : (_ || _) = false |- _ => apply orb_false_iff in H as [? ?]
  | H : (_ || _) = true |- _ => apply orb_true_iff in H
  | H : (_ <? _) = true |- _ => apply Z.ltb_lt in H
  | H : (_ <? _) = false |- _ => apply Z.ltb_ge in H
  | H : (_ <=? _) = true |- _ => apply Z.leb_le in H
  | H : (_ <=? _) = false |- _ => apply Z.leb_gt in H
  | H : (_ =? _) = true |- _ => apply Z.eqb_eq in H
  | H : (_ =? _) = false |- _ => apply Z.eqb_neq in H
  | H : context [_ >=? _] |- _ => rewrite Z.geb_leb in H
  | H : context [_ >? _] |- _ => rewrite Z.gtb_ltb in H
  end.

Lemma BigNum_max_spec a b : BigNum_max a b = Z.max a b.
Proof. unfold BigNum_max. rewrite Z.gtb_ltb. destruct (Z.ltb_spec b a); lia. Qed.

Lemma BigNum_min_spec a b : BigNum_min a b = Z.min a b.
Proof. unfold BigNum_min. destruct (Z.ltb_spec a b); lia. Qed.

Lemma validRange_isOverlapOf tx vu : isOverlapOf tx (validRange tx vu) vu.
Proof. split; simpl; [apply BigNum_max_spec | apply BigNum_min_spec]. Qed.

(** The range pushed for a well-formed update that overlaps a well-formed
    transaction is not empty and lies in the transaction's range. *)
Lemma validRange_nonEmptyWithin tx vu :
  isValidTransaction tx = true ->
  isValidVerifiedStateUpdate vu = true ->
  outside tx vu = false ->
  nonEmptyWithin (txRange tx) (validRange tx vu).
Proof.
  unfold isValidTransaction, isValidVerifiedStateUpdate, isValidRange, outside, lte, gte.
  intros Htx Hvu Hout. zbool.
  unfold nonEmptyWithin, validRange; simpl.
  rewrite BigNum_max_spec, BigNum_min_spec. lia.
Qed.

(** Cutting two disjoint ranges to the transaction's range keeps them
    disjoint. *)
Lemma validRange_disjoint tx va vb :
  disjoint (range (stateUpdate va)) (range (stateUpdate vb)) = true ->
  disjoint (validRange tx va) (validRange tx vb) = true.
Proof.
  unfold disjoint, validRange; simpl. rewrite !BigNum_max_spec, !BigNum_min_spec.
  intros H. zbool. apply orb_true_iff.
  destruct H as [H|H]; zbool; [left | right]; apply Z.leb_le; lia.
Qed.

Lemma validRanges_isOverlapOf tx vus :
  Forall2 (isOverlapOf tx) (map (validRange tx) vus) vus.
Proof.
  induction vus as [|vu vus IH]; simpl; constructor;
    [apply validRange_isOverlapOf | assumption].
Qed.

Lemma validRanges_nonEmptyWithin tx vus :
  isValidTransaction tx = true ->
  Forall (fun vu => isValidVerifiedStateUpdate vu = true /\ outside tx vu = false) vus ->
  Forall (nonEmptyWithin (txRange tx)) (map (validRange tx) vus).
Proof.
  intros Htx Hall. induction Hall as [|vu vus [Hv Ho] _ IH]; simpl; constructor;
    [now apply validRange_nonEmptyWithin | assumption].
Qed.

Lemma pairwiseDisjoint_validRanges tx vus :
  pairwiseDisjoint (map (fun vu => range (stateUpdate vu)) vus) = true ->
  pairwiseDisjoint (map (validRange tx) vus) = true.
Proof.
  induction vus as [|va vus IH]; simpl; [reflexivity|].
  intros H. apply andb_true_iff in H as [Hhd Htl].
  apply andb_true_iff. split; [|now apply IH].
  rewrite forallb_forall in *. intros r Hr.
  apply in_map_iff in Hr as (vb & <- & Hvb).
  apply validRange_disjoint, Hhd, in_map_iff. eauto.
Qed.

Section Engine.

Variable heap : ref -> Trace -> StateUpdate.
Variable this : DefaultStateManager.

(** *** One pass of the loop body *)

Lemma loopBody_invalid tx res vu tr :
  isValidVerifiedStateUpdate vu = false ->
  loopBody heap this tx res vu tr = (tr, Throw InvalidVerifiedUpdate).
Proof. intros Hv. unfold loopBody. now rewrite Hv. Qed.

Lemma loopBody_outside tx res vu tr :
  isValidVerifiedStateUpdate vu = true ->
  outside tx vu = true ->
  loopBody heap this tx res vu tr = (tr, Throw RangeMismatch).
Proof.
  intros Hv Ho. unfold loopBody. rewrite Hv. simpl.
  unfold outside in Ho. now rewrite Ho.
Qed.

(** An update that passes both checks and whose predicate answers with the
    object [c]: the block number decides between the merge and a throw. *)
Lemma loopBody_transitioned tx res vu tr p c :
  isValidVerifiedStateUpdate vu = true ->
  outside tx vu = false ->
  getPlugin (pluginManager this) tr (predicate (stateObject (stateUpdate vu))) = Some p ->
  executeStateTransition p
    (tr ++ [GetPlugin (predicate (stateObject (stateUpdate vu)))])
    (stateUpdate vu) (verifiedBlockNumber vu) tx = Some c ->
  loopBody heap this tx res vu tr =
    (tr ++ stepEvents tx vu,
     if blockNumberRefused heap c (tr ++ stepEvents tx vu) vu
     then Throw BlockNumberMismatch
     else merged tx res vu c).
Proof.
  intros Hv Ho Hp Hc. unfold loopBody. rewrite Hv. simpl.
  unfold outside in Ho. rewrite Ho.
  unfold bind, awaitGetPlugin, awaitExecuteStateTransition, readPlasmaBlockNumber.
  rewrite Hp, Hc.
  unfold stepEvents, blockNumberRefused. rewrite <- app_assoc. simpl.
  destruct (strictNe _ _); simpl; [reflexivity|].
  unfold merged, throw, ret.
  destruct (resultStateUpdate res) as [prev|]; [|reflexivity].
  now destruct (strictEq prev c).
Qed.

(** What a pass that returns has established. *)
Lemma loopBody_Return_inv tx res vu tr tr' res' :
  loopBody heap this tx res vu tr = (tr', Return res') ->
  isValidVerifiedStateUpdate vu = true /\
  outside tx vu = false /\
  validRanges res' = validRanges res ++ [validRange tx vu] /\
  tr' = tr ++ stepEvents tx vu /\
  exists c, resultStateUpdate res' = Some c /\
            blockNumberRefused heap c tr' vu = false /\
            (resultStateUpdate res = None \/ resultStateUpdate res = Some c).
Proof.
  intros Hrun.
  destruct (isValidVerifiedStateUpdate vu) eqn:Hv;
    [|rewrite loopBody_invalid in Hrun by assumption; discriminate].
  destruct (outside tx vu) eqn:Ho;
    [rewrite loopBody_outside in Hrun by assumption; discriminate|].
  destruct (getPlugin (pluginManager this) tr
              (predicate (stateObject (stateUpdate vu)))) as [p|] eqn:Hp.
  2:{ unfold loopBody in Hrun. rewrite Hv in Hrun. simpl in Hrun.
      unfold outside in Ho. rewrite Ho in Hrun.
      unfold bind, awaitGetPlugin in Hrun. rewrite Hp in Hrun. discriminate. }
  destruct (executeStateTransition p
              (tr ++ [GetPlugin (predicate (stateObject (stateUpdate vu)))])
              (stateUpdate vu) (verifiedBlockNumber vu) tx) as [c|] eqn:Hc.
  2:{ unfold loopBody in Hrun. rewrite Hv in Hrun. simpl in Hrun.
      unfold outside in Ho. rewrite Ho in Hrun.
      unfold bind, awaitGetPlugin, awaitExecuteStateTransition in Hrun.
      rewrite Hp, Hc in Hrun. discriminate. }
  rewrite (loopBody_transitioned _ _ _ _ _ _ Hv Ho Hp Hc) in Hrun.
  destruct (blockNumberRefused heap c (tr ++ stepEvents tx vu) vu) eqn:Hb;
    [discriminate|].
  unfold merged in Hrun.
  destruct (resultStateUpdate res) as [prev|] eqn:Hprev.
  - destruct (strictEq prev c) eqn:Heq; [|discriminate].
    apply Nat.eqb_eq in Heq. subst prev.
    inversion Hrun; subst. simpl. repeat split; eauto.
  - inversion Hrun; subst. simpl. repeat split; eauto.
Qed.

(** *** The whole loop *)

Lemma forOf_loopBody_Return_inv tx vus : forall res tr tr' res',
  forOf (loopBody heap this tx) vus res tr = (tr', Return res') ->
  validRanges res' = validRanges res ++ map (validRange tx) vus /\
  Forall (fun vu => isValidVerifiedStateUpdate vu = true /\ outside tx vu = false) vus.
Proof.
  induction vus as [|vu vus IH]; intros res tr tr' res' Hrun.
  - simpl in Hrun. unfold ret in Hrun. inversion Hrun; subst.
    split; [now rewrite app_nil_r | constructor].
  - rewrite forOf_cons in Hrun.
    apply bind_Return_inv in Hrun as (tr1 & res1 & Hstep & Hrest).
    apply loopBody_Return_inv in Hstep as (Hv & Ho & Hranges & _).
    apply IH in Hrest as (Hranges' & Hall).
    split.
    + rewrite Hranges', Hranges, <- app_assoc. reflexivity.
    + constructor; auto.
Qed.

(** [executeTransaction] for a well-formed transaction whose store answers. *)
Lemma executeTransaction_unfold tx tr vus :
  isValidTransaction tx = true ->
  getVerifiedStateUpdates (stateDB this) tr
    (start (txRange tx)) (end_ (txRange tx)) = Some vus ->
  executeTransaction heap this tx tr =
    forOf (loopBody heap this tx) vus emptyResult
      (tr ++ [GetVerifiedStateUpdates (start (txRange tx)) (end_ (txRange tx))]).
Proof.
  intros Htx Hdb. unfold executeTransaction. rewrite Htx. simpl.
  unfold bind, awaitGetVerifiedStateUpdates. now rewrite Hdb.
Qed.

Lemma executeTransaction_Return_inv tx tr tr' res :
  executeTransaction heap this tx tr = (tr', Return res) ->
  isValidTransaction tx = true /\
  exists vus,
    getVerifiedStateUpdates (stateDB this) tr
      (start (txRange tx)) (end_ (txRange tx)) = Some vus /\
    forOf (loopBody heap this tx) vus emptyResult
      (tr ++ [GetVerifiedStateUpdates (start (txRange tx)) (end_ (txRange tx))])
    = (tr', Return res).
Proof.
  intros Hrun.
  destruct (isValidTransaction tx) eqn:Htx;
    [|unfold executeTransaction in Hrun; rewrite Htx in Hrun; discriminate].
  split; [reflexivity|].
  destruct (getVerifiedStateUpdates (stateDB this) tr
              (start (txRange tx)) (end_ (txRange tx))) as [vus|] eqn:Hdb.
  - exists vus. split; [reflexivity|].
    now rewrite <- (executeTransaction_unfold _ _ _ Htx Hdb).
  - unfold executeTransaction in Hrun. rewrite Htx in Hrun. simpl in Hrun.
    unfold bind, awaitGetVerifiedStateUpdates in Hrun. rewrite Hdb in Hrun.
    discriminate.
Qed.

(** *** The claims on [executeTransaction] *)

(** C3, as amended.  When [executeTransaction] returns, its [validRanges]
    are, in order, the ranges [max(tx.start, update.start),
    min(tx.end, update.end)) of the verified updates the store returned; each
    is non-empty and lies within the transaction's range; and they are
    pairwise disjoint provided the ranges of the updates the store returned
    are pairwise disjoint. *)
Theorem validRanges_of_success tx tr tr' res :
  executeTransaction heap this tx tr = (tr', Return res) ->
  exists vus,
    getVerifiedStateUpdates (stateDB this) tr
      (start (txRange tx)) (end_ (txRange tx)) = Some vus /\
    Forall2 (isOverlapOf tx) (validRanges res) vus /\
    Forall (nonEmptyWithin (txRange tx)) (validRanges res) /\
    (pairwiseDisjoint (map (fun vu => range (stateUpdate vu)) vus) = true ->
     pairwiseDisjoint (validRanges res) = true).
Proof.
  intros Hrun.
  apply executeTransaction_Return_inv in Hrun as (Htx & vus & Hdb & Hloop).
  apply forOf_loopBody_Return_inv in Hloop as (Hranges & Hall).
  simpl in Hranges. exists vus. rewrite Hranges.
  split; [assumption|]. split; [|split].
  - apply validRanges_isOverlapOf.
  - now apply validRanges_nonEmptyWithin.
  - apply pairwiseDisjoint_validRanges.
Qed.


(** C5, as amended.  When the store returns an update whose range does not
    overlap the transaction's (update.end <= tx.start or update.start >=
    tx.end), the call never returns a result, so the update is not silently
    left out; and when the transaction is well-formed, the updates before it
    in the store's answer were each processed without error and the update
    itself is well-formed, the call throws RangeMismatch with the trace as it
    was on reaching the update: neither the plugin manager nor the predicate
    has been called for it. *)
Theorem outside_update_RangeMismatch tx tr vus vu :
  getVerifiedStateUpdates (stateDB this) tr
    (start (txRange tx)) (end_ (txRange tx)) = Some vus ->
  vu ∈ vus ->
  outside tx vu = true ->
  (forall tr' res, executeTransaction heap this tx tr <> (tr', Return res)) /\
  (forall pre post tr1 res,
     isValidTransaction tx = true ->
     vus = pre ++ vu :: post ->
     forOf (loopBody heap this tx) pre emptyResult
       (tr ++ [GetVerifiedStateUpdates (start (txRange tx)) (end_ (txRange tx))])
     = (tr1, Return res) ->
     isValidVerifiedStateUpdate vu = true ->
     executeTransaction heap this tx tr = (tr1, Throw RangeMismatch)).
Proof.
  intros Hdb Hin Ho. split.
  - intros tr' res Hrun.
    apply executeTransaction_Return_inv in Hrun as (_ & vus' & Hdb' & Hloop).
    rewrite Hdb in Hdb'. inversion Hdb'; subst vus'.
    apply forOf_loopBody_Return_inv in Hloop as (_ & Hall).
    rewrite Forall_forall in Hall. destruct (Hall vu Hin) as [_ Ho'].
    congruence.
  - intros pre post tr1 res Htx -> Hpre Hv.
    rewrite (executeTransaction_unfold _ _ _ Htx Hdb).
    rewrite (forOf_app_Return _ _ _ _ _ _ _ Hpre).
    rewrite forOf_cons. apply bind_Throw. now apply loopBody_outside.
Qed.

(** C9.  For a well-formed transaction for which the store returns no
    verified update, [executeTransaction] returns: its [stateUpdate] is
    undefined and its [validRanges] is the empty list. *)
Theorem executeTransaction_no_updates tx tr :
  isValidTransaction tx = true ->
  getVerifiedStateUpdates (stateDB this) tr
    (start (txRange tx)) (end_ (txRange tx)) = Some [] ->
  executeTransaction heap this tx tr =
    (tr ++ [GetVerifiedStateUpdates (start (txRange tx)) (end_ (txRange tx))],
     Return {| resultStateUpdate := None; validRanges := [] |}).
Proof.
  intros Htx Hdb. now rewrite (executeTransaction_unfold _ _ _ Htx Hdb).
Qed.

End Engine.

Import Scenario.

(** C1, on the code.  A transaction over [0, 50) spans the verified updates
    [0, 30) and [30, 50); the predicate answers each with a new object, and
    the two objects hold the same state update.  The candidates are
    value-identical, and the call throws InconsistentTransition: line 104
    compares the objects by identity. *)
Theorem equal_candidates_rejected :
  let heap := allEqual (update 0 50 6) in
  let this := manager [verified 0 30 5; verified 30 50 5] freshObject in
  heap 2%nat = heap 4%nat /\
  executeTransaction heap this (transaction 0 50) [] =
    (asked 0 50 ++ stepEvents (transaction 0 50) (verified 0 30 5)
                ++ stepEvents (transaction 0 50) (verified 30 50 5),
     Throw InconsistentTransition).
Proof. split; reflexivity. Qed.

(** The comparison of line 104 on two candidates, whatever they hold: a
    second candidate is rejected exactly when it is another object. *)
Lemma merged_by_identity tx res vu previous c :
  resultStateUpdate res = Some previous ->
  (merged tx res vu c = Throw InconsistentTransition <-> previous <> c).
Proof.
  intros Hprev. unfold merged, strictEq. rewrite Hprev.
  destruct (Nat.eqb_spec previous c); split; intros; congruence.
Qed.

(** C3 as stated fails.  The store returns the updates [0, 30) and [20, 50)
    for a transaction over [0, 50) and the predicate answers both with the
    same object: the call returns, with valid ranges that overlap. *)
Lemma overlapping_validRanges :
  snd (executeTransaction (allEqual (update 0 50 6))
         (manager [verified 0 30 5; verified 20 50 5] (sameObject 0%nat))
         (transaction 0 50) [])
  = Return {| resultStateUpdate := Some 0%nat;
              validRanges := [ {| start := 0; end_ := 30 |};
                               {| start := 20; end_ := 50 |} ] |}
  /\ pairwiseDisjoint [ {| start := 0; end_ := 30 |};
                        {| start := 20; end_ := 50 |} ] = false.
Proof. split; reflexivity. Qed.


(** C5 as stated fails.  The store returns the update [0, 100), which
    overlaps the transaction over [10, 50), and then the update [60, 100),
    which does not.  The candidate for the first is at block 7 where 6 is
    expected: the call throws BlockNumberMismatch, not RangeMismatch, and the
    second update is never reached. *)
Lemma earlier_failure_before_RangeMismatch :
  outside (transaction 10 50) (verified 60 100 5) = true
  /\ executeTransaction (allEqual (update 10 50 7))
       (manager [verified 0 100 5; verified 60 100 5] (sameObject 0%nat))
       (transaction 10 50) []
     = (asked 10 50 ++ stepEvents (transaction 10 50) (verified 0 100 5),
        Throw BlockNumberMismatch).
Proof. split; vm_compute; reflexivity. Qed.

(** A predicate that keeps one object, writes the expected block number into
    it at each call and returns it: the transaction succeeds over two updates
    verified at blocks 5 and 6, since each test of line 87 reads the object
    as it is then, and line 104 sees the same object twice. *)
Lemma rewritten_object_passes :
  executeTransaction (keptObject (update 0 50 0))
    (manager [verified 0 30 5; verified 30 50 6] (sameObject 0%nat))
    (transaction 0 50) []
  = (asked 0 50 ++ stepEvents (transaction 0 50) (verified 0 30 5)
                ++ stepEvents (transaction 0 50) (verified 30 50 6),
     Return {| resultStateUpdate := Some 0%nat;
               validRanges := [ {| start := 0; end_ := 30 |};
                                {| start := 30; end_ := 50 |} ] |}).
Proof. vm_compute. reflexivity. Qed.

(** C3, the scenario of the spec: a transaction over [10, 50), one verified
    update over [0, 100) at block 5, a candidate at block 6. *)
Lemma validRanges_of_success_witness :
  executeTransaction (allEqual (update 10 50 6))
    (manager [verified 0 100 5] (sameObject 0%nat)) (transaction 10 50) []
  = (asked 10 50 ++ stepEvents (transaction 10 50) (verified 0 100 5),
     Return {| resultStateUpdate := Some 0%nat;
               validRanges := [ {| start := 10; end_ := 50 |} ] |})
  /\ exists vus,
      Some [verified 0 100 5] = Some vus /\
      Forall2 (isOverlapOf (transaction 10 50)) [ {| start := 10; end_ := 50 |} ] vus /\
      Forall (nonEmptyWithin {| start := 10; end_ := 50 |})
             [ {| start := 10; end_ := 50 |} ] /\
      (pairwiseDisjoint (map (fun vu => range (stateUpdate vu)) vus) = true ->
       pairwiseDisjoint [ {| start := 10; end_ := 50 |} ] = true).
Proof.
  split; [reflexivity|].
  exact (validRanges_of_success (allEqual (update 10 50 6))
           (manager [verified 0 100 5] (sameObject 0%nat)) (transaction 10 50) []
           _ _ eq_refl).
Defined.


(** C5 on the scenario of the spec: a transaction over [10, 50) and a
    verified update over [60, 100). *)
Lemma outside_update_RangeMismatch_witness :
  outside (transaction 10 50) (verified 60 100 5) = true /\
  executeTransaction (allEqual (update 10 50 6))
    (manager [verified 60 100 5] (sameObject 0%nat)) (transaction 10 50) []
  = (asked 10 50, Throw RangeMismatch).
Proof.
  split; [reflexivity|].
  refine (proj2 (outside_update_RangeMismatch (allEqual (update 10 50 6))
           (manager [verified 60 100 5] (sameObject 0%nat)) (transaction 10 50) []
           [verified 60 100 5] (verified 60 100 5) eq_refl _ eq_refl)
           [] [] (asked 10 50) emptyResult eq_refl eq_refl eq_refl eq_refl).
  apply list_elem_of_here.
Defined.

(** C9 on a transaction over [10, 50) and a store with nothing in range. *)
Lemma executeTransaction_no_updates_witness :
  isValidTransaction (transaction 10 50) = true /\
  executeTransaction (allEqual (update 10 50 6))
    (manager [] (sameObject 0%nat)) (transaction 10 50) []
  = (asked 10 50, Return {| resultStateUpdate := None; validRanges := [] |}).
Proof.
  split; [reflexivity|].
  exact (executeTransaction_no_updates (allEqual (update 10 50 6))
           (manager [] (sameObject 0%nat)) (transaction 10 50) [] eq_refl eq_refl).
Defined.

End StateManagerProofs.

(** ** The Web3 handler: proofs *)

Module Web3Proofs.

Import Web3.

(** *** Hex strings *)

Lemma append_String c a b : String c a +:+ b = String c (a +:+ b).
Proof. reflexivity. Qed.

Lemma append_assoc a b c : (a +:+ b) +:+ c = a +:+ b +:+ c.
Proof.
  induction a as [|x a IH]; [reflexivity|].
  rewrite !append_String. now rewrite IH.
Qed.

Lemma length_append a b :
  String.length (a +:+ b) = (String.length a + String.length b)%nat.
Proof.
  induction a as [|x a IH]; [reflexivity|].
  rewrite append_String. simpl. now rewrite IH.
Qed.

Lemma substring_whole s : substring 0 (String.length s) s = s.
Proof. induction s as [|x s IH]; simpl; [reflexivity | now rewrite IH]. Qed.

Lemma substring_head a b : substring 0 (String.length a) (a +:+ b) = a.
Proof.
  induction a as [|x a IH].
  - simpl. now destruct b.
  - rewrite append_String. simpl. now rewrite IH.
Qed.

Lemma substring_skip a b m : substring (String.length a) m (a +:+ b) = substring 0 m b.
Proof.
  induction a as [|x a IH]; [reflexivity|].
  rewrite append_String. simpl. exact IH.
Qed.

(** The field of [m] characters that follows a prefix of [n] characters. *)
Lemma substring_field pre x post n m :
  String.length pre = n -> String.length x = m ->
  substring n m (pre +:+ x +:+ post) = x.
Proof. intros <- <-. rewrite substring_skip. apply substring_head. Qed.

Lemma restFrom_field pre x n :
  String.length pre = n -> restFrom n (pre +:+ x) = x.
Proof.
  intros <-. unfold restFrom. rewrite length_append.
  replace (String.length pre + String.length x - String.length pre)%nat
    with (String.length x) by lia.
  rewrite substring_skip. apply substring_whole.
Qed.

(** Unpacking what the layout of the spec packs gives the fields back. *)
Lemma unpackCalldata_packCalldata sel ts qo ep cd :
  String.length sel = 8%nat -> String.length ts = 64%nat ->
  String.length qo = 64%nat -> String.length ep = 40%nat ->
  unpackCalldata (packCalldata sel ts qo ep cd) =
    {| selector := sel; timestamp := ts; queueOrigin := qo;
       entrypoint := ep; calldata := cd |}.
Proof.
  intros Hsel Hts Hqo Hep. unfold unpackCalldata, packCalldata. f_equal.
  - now apply (substring_field "0x").
  - rewrite <- (append_assoc "0x" sel).
    apply substring_field; [|assumption].
    rewrite length_append, Hsel. reflexivity.
  - replace ("0x" +:+ sel +:+ ts +:+ qo +:+ repeatString "00" 12 +:+ ep +:+ cd)
      with (("0x" +:+ sel +:+ ts) +:+ qo +:+ repeatString "00" 12 +:+ ep +:+ cd)
      by now rewrite !append_assoc.
    apply substring_field; [|assumption].
    rewrite !length_append, Hsel, Hts. reflexivity.
  - replace ("0x" +:+ sel +:+ ts +:+ qo +:+ repeatString "00" 12 +:+ ep +:+ cd)
      with (("0x" +:+ sel +:+ ts +:+ qo +:+ repeatString "00" 12) +:+ ep +:+ cd)
      by now rewrite !append_assoc.
    apply substring_field; [|assumption].
    rewrite !length_append, Hsel, Hts, Hqo. reflexivity.
  - replace ("0x" +:+ sel +:+ ts +:+ qo +:+ repeatString "00" 12 +:+ ep +:+ cd)
      with (("0x" +:+ sel +:+ ts +:+ qo +:+ repeatString "00" 12 +:+ ep) +:+ cd)
      by now rewrite !append_assoc.
    apply restFrom_field.
    rewrite !length_append, Hsel, Hts, Hqo, Hep. reflexivity.
Qed.

(** The two context words are read back whatever follows them. *)
Lemma unpackCalldata_packCalldata_words sel ts qo ep cd :
  String.length sel = 8%nat -> String.length ts = 64%nat ->
  String.length qo = 64%nat ->
  timestamp (unpackCalldata (packCalldata sel ts qo ep cd)) = ts
  /\ queueOrigin (unpackCalldata (packCalldata sel ts qo ep cd)) = qo.
Proof.
  intros Hsel Hts Hqo. unfold unpackCalldata, packCalldata.
  cbn [timestamp queueOrigin]. split.
  - rewrite <- (append_assoc "0x" sel).
    apply substring_field; [|assumption].
    rewrite length_append, Hsel. reflexivity.
  - replace ("0x" +:+ sel +:+ ts +:+ qo +:+ repeatString "00" 12 +:+ ep +:+ cd)
      with (("0x" +:+ sel +:+ ts) +:+ qo +:+ repeatString "00" 12 +:+ ep +:+ cd)
      by now rewrite !append_assoc.
    apply substring_field; [|assumption].
    rewrite !length_append, Hsel, Hts. reflexivity.
Qed.

Lemma length_zero_word : String.length (repeatString "00" 32) = 64%nat.
Proof. reflexivity. Qed.

(** The packing of the code is the layout of the spec at a zero timestamp and
    a zero queue origin. *)
Lemma getExecutionMgrTxData_packCalldata lib ep cd :
  DefaultWeb3Handler.getExecutionMgrTxData lib ep cd =
    packCalldata (executeCallMethodId lib) (repeatString "00" 32)
      (repeatString "00" 32) (remove0x lib ep) (remove0x lib cd).
Proof.
  unfold DefaultWeb3Handler.getExecutionMgrTxData, packCalldata.
  now rewrite append_assoc.
Qed.

Lemma getExecutionMgrTxData_zeroContext lib ep cd :
  String.length (executeCallMethodId lib) = 8%nat ->
  zeroContext (DefaultWeb3Handler.getExecutionMgrTxData lib ep cd).
Proof.
  intros Hsel. unfold zeroContext.
  rewrite getExecutionMgrTxData_packCalldata.
  now apply unpackCalldata_packCalldata_words.
Qed.

(** *** Building and submitting the internal transaction *)

Section Handler.

Variable lib : Imports.
Variable this : DefaultWeb3Handler.t.

(** [ovmTxToInternalTx] only reads the world. *)
Lemma ovmTxToInternalTx_world rawOvmTx w w' out :
  DefaultWeb3Handler.ovmTxToInternalTx lib this rawOvmTx w = (w', out) -> w' = w.
Proof.
  unfold DefaultWeb3Handler.ovmTxToInternalTx, bind, throw, ret.
  destruct (parseTransaction lib rawOvmTx) as [ovmTx|]; [|now inversion 1].
  destruct (Wallet.getTransactionCount _ w) as [n|]; [|now inversion 1].
  destruct (Wallet.sign _ _) as [signed|]; now inversion 1.
Qed.

(** What it returns is the signature of an internal transaction whose data
    is packed by [getExecutionMgrTxData]. *)
Lemma ovmTxToInternalTx_Return_inv rawOvmTx w w' signed :
  DefaultWeb3Handler.ovmTxToInternalTx lib this rawOvmTx w = (w', Return signed) ->
  exists itx ep cd,
    Wallet.sign (DefaultWeb3Handler.wallet this) itx = Some signed
    /\ InternalTx.data itx = DefaultWeb3Handler.getExecutionMgrTxData lib ep cd.
Proof.
  unfold DefaultWeb3Handler.ovmTxToInternalTx, bind, throw, ret.
  destruct (parseTransaction lib rawOvmTx) as [ovmTx|]; [|discriminate].
  destruct (Wallet.getTransactionCount _ w) as [n|]; [|discriminate].
  destruct (Wallet.sign _ _) as [s|] eqn:Hsign; [|discriminate].
  intros Heq. inversion Heq; subst. eauto.
Qed.

(** [sendRawTransaction] once the internal transaction is built: the write
    of the pair comes first, then the submission, then the comparison. *)
Lemma sendRawTransactionString_built rawOvmTx w internalTx :
  DefaultWeb3Handler.ovmTxToInternalTx lib this rawOvmTx w = (w, Return internalTx) ->
  DefaultWeb3Handler.sendRawTransactionString lib this rawOvmTx w =
    (let* _ := DefaultWeb3Handler.mapOvmTxHashToInternalTxHash lib this
                 (keccak256 lib rawOvmTx) (keccak256 lib internalTx) in
     let* response := DefaultWeb3Handler.providerSend this
                        Web3RpcMethods.sendRawTransaction (JString internalTx) in
     let* returnedInternalTxHash := expectString response in
     if negb (String.eqb (remove0x lib (keccak256 lib internalTx))
                         (remove0x lib returnedInternalTxHash))
     then throw HashMismatch
     else ret (keccak256 lib rawOvmTx)) w.
Proof.
  intros Hitx. unfold DefaultWeb3Handler.sendRawTransactionString.
  now rewrite (bind_Return _ _ _ _ _ Hitx).
Qed.

(** C2, as amended.  Once the pair of hashes is stored and the internal
    transaction submitted, a returned hash that differs from the computed
    internal hash (both without their 0x) makes the call throw HashMismatch,
    and an equal one makes it return the OVM transaction hash; in both cases
    the pair stored before the submission is still in the mapping. *)
Theorem sendRawTransaction_hash_check rawOvmTx w internalTx returned :
  DefaultWeb3Handler.ovmTxToInternalTx lib this rawOvmTx w = (w, Return internalTx) ->
  Contract.mapOvmTransactionHashToInternalTransactionHash
    (DefaultWeb3Handler.executionManager this) w
    (add0x lib (keccak256 lib rawOvmTx)) (add0x lib (keccak256 lib internalTx)) = true ->
  Web3Provider.send (DefaultWeb3Handler.provider this)
    {| hashMapping := hashMapping (submitted lib w rawOvmTx internalTx);
       sent := sent w |}
    Web3RpcMethods.sendRawTransaction (JString internalTx) = Some (JString returned) ->
  (remove0x lib (keccak256 lib internalTx) <> remove0x lib returned ->
   DefaultWeb3Handler.sendRawTransactionString lib this rawOvmTx w
   = (submitted lib w rawOvmTx internalTx, Throw HashMismatch))
  /\ (remove0x lib (keccak256 lib internalTx) = remove0x lib returned ->
      DefaultWeb3Handler.sendRawTransactionString lib this rawOvmTx w
      = (submitted lib w rawOvmTx internalTx, Return (keccak256 lib rawOvmTx)))
  /\ hashMapping (submitted lib w rawOvmTx internalTx)
       !! add0x lib (keccak256 lib rawOvmTx)
     = Some (add0x lib (keccak256 lib internalTx)).
Proof.
  intros Hitx Hmap Hsend.
  rewrite (sendRawTransactionString_built _ _ _ Hitx).
  unfold bind, DefaultWeb3Handler.mapOvmTxHashToInternalTxHash,
    DefaultWeb3Handler.providerSend.
  rewrite Hmap. simpl in *. rewrite Hsend. simpl.
  unfold submitted, throw, ret. split; [|split].
  - intros Hne. apply String.eqb_neq in Hne. now rewrite Hne.
  - intros Heq. apply String.eqb_eq in Heq. now rewrite Heq.
  - simpl. apply lookup_insert_eq.
Qed.

(** C7.  When the write of the pair is rejected, the call throws and the
    world is as it was: nothing has been sent to the provider, so the
    internal transaction is not submitted, and no pair is stored. *)
Theorem mapping_failure_stops rawOvmTx w internalTx :
  DefaultWeb3Handler.ovmTxToInternalTx lib this rawOvmTx w = (w, Return internalTx) ->
  Contract.mapOvmTransactionHashToInternalTransactionHash
    (DefaultWeb3Handler.executionManager this) w
    (add0x lib (keccak256 lib rawOvmTx)) (add0x lib (keccak256 lib internalTx)) = false ->
  DefaultWeb3Handler.sendRawTransactionString lib this rawOvmTx w
    = (w, Throw MappingPersistError)
  /\ DefaultWeb3Handler.sendRawTransaction lib this (JString rawOvmTx) w
    = (w, Throw MappingPersistError)
  /\ sent (fst (DefaultWeb3Handler.sendRawTransaction lib this (JString rawOvmTx) w))
    = sent w.
Proof.
  intros Hitx Hmap.
  assert (Hrun : DefaultWeb3Handler.sendRawTransactionString lib this rawOvmTx w
                 = (w, Throw MappingPersistError)).
  { rewrite (sendRawTransactionString_built _ _ _ Hitx).
    unfold bind, DefaultWeb3Handler.mapOvmTxHashToInternalTxHash.
    now rewrite Hmap. }
  assert (Hjs : DefaultWeb3Handler.sendRawTransaction lib this (JString rawOvmTx) w
                = (w, Throw MappingPersistError)).
  { unfold DefaultWeb3Handler.sendRawTransaction, bind, expectString, ret.
    now rewrite Hrun. }
  split; [exact Hrun|]. split; [exact Hjs|]. now rewrite Hjs.
Qed.

(** What [sendRawTransaction] sends to the provider, however the call ends:
    nothing, or the signature of an internal transaction packed by
    [getExecutionMgrTxData]. *)
Lemma sendRawTransactionString_sent rawOvmTx w :
  sent (fst (DefaultWeb3Handler.sendRawTransactionString lib this rawOvmTx w)) = sent w
  \/ exists itx ep cd signed,
       InternalTx.data itx = DefaultWeb3Handler.getExecutionMgrTxData lib ep cd
       /\ Wallet.sign (DefaultWeb3Handler.wallet this) itx = Some signed
       /\ sent (fst (DefaultWeb3Handler.sendRawTransactionString lib this rawOvmTx w))
          = sent w ++ [(Web3RpcMethods.sendRawTransaction, JString signed)].
Proof.
  destruct (DefaultWeb3Handler.ovmTxToInternalTx lib this rawOvmTx w)
    as [w0 [e|signed]] eqn:Hitx.
  - left. unfold DefaultWeb3Handler.sendRawTransactionString.
    rewrite (bind_Throw _ _ _ _ _ Hitx). simpl.
    now rewrite (ovmTxToInternalTx_world _ _ _ _ Hitx).
  - pose proof (ovmTxToInternalTx_world _ _ _ _ Hitx) as ->.
    rewrite (sendRawTransactionString_built _ _ _ Hitx).
    unfold bind, DefaultWeb3Handler.mapOvmTxHashToInternalTxHash.
    destruct (Contract.mapOvmTransactionHashToInternalTransactionHash _ _ _ _);
      [|now left].
    right. apply ovmTxToInternalTx_Return_inv in Hitx as (itx & ep & cd & Hsign & Hdata).
    exists itx, ep, cd, signed. split; [assumption|]. split; [assumption|].
    unfold DefaultWeb3Handler.providerSend.
    destruct (Web3Provider.send _ _ _ _) as [[|returned| |]|]; simpl; try reflexivity.
    now destruct (negb _).
Qed.

(** What [call] and [estimateGas] send: nothing when the transaction object
    is ill-typed, or one request whose data is packed by
    [getExecutionMgrTxData]. *)
Lemma call_sent txObject defaultBlock w :
  fst (DefaultWeb3Handler.call lib this txObject defaultBlock w) = w
  \/ exists ep cd,
       sent (fst (DefaultWeb3Handler.call lib this txObject defaultBlock w))
       = sent w ++ [(Web3RpcMethods.call,
                     JArray [DefaultWeb3Handler.internalCall lib this
                               (DefaultWeb3Handler.getExecutionMgrTxData lib ep cd);
                             defaultBlock])].
Proof.
  unfold DefaultWeb3Handler.call, bind, expectString, throw, ret.
  destruct (getField txObject "to") as [|ep| |]; try (now left).
  destruct (getField txObject "data") as [|cd| |]; try (now left).
  right. exists ep, cd. reflexivity.
Qed.

Lemma estimateGas_sent txObject defaultBlock w :
  fst (DefaultWeb3Handler.estimateGas lib this txObject defaultBlock w) = w
  \/ exists ep cd,
       sent (fst (DefaultWeb3Handler.estimateGas lib this txObject defaultBlock w))
       = sent w ++ [(Web3RpcMethods.estimateGas,
                     JArray [DefaultWeb3Handler.internalCall lib this
                               (DefaultWeb3Handler.getExecutionMgrTxData lib ep cd)])].
Proof.
  unfold DefaultWeb3Handler.estimateGas, bind, expectString, throw, ret.
  destruct (getField txObject "to") as [|ep| |]; try (now left).
  destruct (getField txObject "data") as [|cd| |]; try (now left).
  right. exists ep, cd. reflexivity.
Qed.

End Handler.

(** *** The calldata layout *)

(** C6, as amended.  For every entrypoint and calldata, the packed calldata
    is methodSelector("executeCall"), a 32-byte zero timestamp, a 32-byte
    zero queue origin, the 32-byte zero-padded entrypoint and the calldata
    (entrypoint and calldata without their 0x); for a 20-byte entrypoint,
    unpacking gives back the entrypoint, the two zero words and the
    calldata. *)
Theorem packing_round_trip lib ovmEntrypoint ovmCalldata :
  String.length (executeCallMethodId lib) = 8%nat ->
  String.length (remove0x lib ovmEntrypoint) = 40%nat ->
  DefaultWeb3Handler.getExecutionMgrTxData lib ovmEntrypoint ovmCalldata
  = "0x" +:+ executeCallMethodId lib +:+ repeatString "00" 32
         +:+ repeatString "00" 32
         +:+ repeatString "00" 12 +:+ remove0x lib ovmEntrypoint
         +:+ remove0x lib ovmCalldata
  /\ unpackCalldata
       (DefaultWeb3Handler.getExecutionMgrTxData lib ovmEntrypoint ovmCalldata)
     = {| selector := executeCallMethodId lib;
          timestamp := repeatString "00" 32;
          queueOrigin := repeatString "00" 32;
          entrypoint := remove0x lib ovmEntrypoint;
          calldata := remove0x lib ovmCalldata |}.
Proof.
  intros Hsel Hep. split.
  - apply getExecutionMgrTxData_packCalldata.
  - rewrite getExecutionMgrTxData_packCalldata.
    now apply unpackCalldata_packCalldata.
Qed.

(** C10.  The packing has no timestamp or queue origin among its arguments
    and writes both words as zeros; so does every request that [call],
    [estimateGas] and [sendRawTransaction] send to the provider. *)
Theorem zero_context_forwarded lib :
  String.length (executeCallMethodId lib) = 8%nat ->
  (forall ovmEntrypoint ovmCalldata,
     zeroContext (DefaultWeb3Handler.getExecutionMgrTxData lib ovmEntrypoint ovmCalldata))
  /\ (forall this txObject defaultBlock w,
        fst (DefaultWeb3Handler.call lib this txObject defaultBlock w) = w
        \/ exists d,
             zeroContext d
             /\ sent (fst (DefaultWeb3Handler.call lib this txObject defaultBlock w))
                = sent w ++ [(Web3RpcMethods.call,
                              JArray [DefaultWeb3Handler.internalCall lib this d;
                                      defaultBlock])])
  /\ (forall this txObject defaultBlock w,
        fst (DefaultWeb3Handler.estimateGas lib this txObject defaultBlock w) = w
        \/ exists d,
             zeroContext d
             /\ sent (fst (DefaultWeb3Handler.estimateGas lib this txObject defaultBlock w))
                = sent w ++ [(Web3RpcMethods.estimateGas,
                              JArray [DefaultWeb3Handler.internalCall lib this d])])
  /\ (forall this rawOvmTx w,
        sent (fst (DefaultWeb3Handler.sendRawTransactionString lib this rawOvmTx w))
        = sent w
        \/ exists itx signed,
             zeroContext (InternalTx.data itx)
             /\ Wallet.sign (DefaultWeb3Handler.wallet this) itx = Some signed
             /\ sent (fst (DefaultWeb3Handler.sendRawTransactionString lib this rawOvmTx w))
                = sent w ++ [(Web3RpcMethods.sendRawTransaction, JString signed)]).
Proof.
  intros Hsel. split; [|split; [|split]].
  - intros ep cd. now apply getExecutionMgrTxData_zeroContext.
  - intros this txObject defaultBlock w.
    destruct (call_sent lib this txObject defaultBlock w) as [Hw|(ep & cd & Hs)];
      [now left|].
    right. eexists. split; [|exact Hs]. now apply getExecutionMgrTxData_zeroContext.
  - intros this txObject defaultBlock w.
    destruct (estimateGas_sent lib this txObject defaultBlock w) as [Hw|(ep & cd & Hs)];
      [now left|].
    right. eexists. split; [|exact Hs]. now apply getExecutionMgrTxData_zeroContext.
  - intros this rawOvmTx w.
    destruct (sendRawTransactionString_sent lib this rawOvmTx w)
      as [Hw|(itx & ep & cd & signed & Hdata & Hsign & Hs)]; [now left|].
    right. exists itx, signed. split; [|now split].
    rewrite Hdata. now apply getExecutionMgrTxData_zeroContext.
Qed.

(** *** Dispatch *)

Section DispatchProofs.

Variable lib : Imports.
Context {H : Type} {implementation : Web3Handler H}.

(** [handleRequest] selects a [case], checks the parameters against the
    count of that [case], and only then executes its method. *)
Lemma handleRequest_dispatch (this : H) method params :
  handleRequest lib this method params =
    match resolve lib method with
    | Some m =>
        let* args := assertParameters params (expectedArity m) (defaultLast m) in
        invoke m this args
    | None => throw UnsupportedMethodError
    end.
Proof.
  unfold handleRequest, resolve, cases. cbn [List.find].
  repeat (destruct (String.eqb method (rpcName lib _)); [reflexivity|]).
  reflexivity.
Qed.

Lemma resolve_unsupported method :
  (forall m, rpcName lib m <> method) -> resolve lib method = None.
Proof.
  intros Hno.
  assert (E : forall m, String.eqb method (rpcName lib m) = false).
  { intros m. apply String.eqb_neq. intros ->. now apply (Hno m). }
  unfold resolve, cases. cbn [List.find]. now rewrite !E.
Qed.

Lemma assertParameters_refused params expected d w :
  refused params expected ->
  assertParameters params expected d w = (w, Throw InvalidParametersError).
Proof.
  unfold refused, assertParameters. destruct params as [ps|].
  - intros [Hn Hn1].
    apply Z.eqb_neq in Hn, Hn1. now rewrite Hn, Hn1.
  - intros Hn. apply Z.eqb_neq in Hn. now rewrite Hn.
Qed.

Lemma assertParameters_exact ps expected d w :
  Z.of_nat (List.length ps) = expected ->
  assertParameters (Some ps) expected d w = (w, Return ps).
Proof.
  intros <-. unfold assertParameters. rewrite Z.eqb_refl, orb_true_r. reflexivity.
Qed.

Lemma assertParameters_one_fewer ps expected d w :
  Z.of_nat (List.length ps) = expected - 1 ->
  assertParameters (Some ps) expected d w = (w, Return (ps ++ [d])).
Proof.
  intros Hlen. unfold assertParameters. rewrite Hlen, Z.eqb_refl. simpl.
  assert (E : (expected - 1 =? expected) = false) by (apply Z.eqb_neq; lia).
  now rewrite E.
Qed.

(** C8, as amended.  Whatever the methods of the handler do: a method name
    that is the string of no member is answered with UnsupportedMethodError;
    for a supported method, parameters that are absent although some are
    expected, or whose count is neither the expected count nor one less,
    are answered with InvalidParametersError, the world being left as it
    was, so the method is not executed; with the expected count the method
    is executed on the parameters; and with one parameter fewer, a method
    that takes a block tag is executed with 'latest' appended. *)
Theorem handleRequest_validates (this : H) method params w :
  ((forall m, rpcName lib m <> method) ->
   handleRequest lib this method params w = (w, Throw UnsupportedMethodError))
  /\ (forall m, resolve lib method = Some m ->
        refused params (expectedArity m) ->
        handleRequest lib this method params w = (w, Throw InvalidParametersError))
  /\ (forall m ps, resolve lib method = Some m ->
        params = Some ps ->
        Z.of_nat (List.length ps) = expectedArity m ->
        handleRequest lib this method params w = invoke m this ps w)
  /\ (forall m ps, resolve lib method = Some m ->
        takesDefaultBlock m = true ->
        params = Some ps ->
        Z.of_nat (List.length ps) = expectedArity m - 1 ->
        handleRequest lib this method params w
        = invoke m this (ps ++ [JString latestBlock]) w).
Proof.
  rewrite handleRequest_dispatch. split; [|split; [|split]].
  - intros Hno. now rewrite (resolve_unsupported _ Hno).
  - intros m -> Href. apply bind_Throw. now apply assertParameters_refused.
  - intros m ps -> -> Hlen.
    now rewrite (bind_Return _ _ _ _ _ (assertParameters_exact _ _ _ _ Hlen)).
  - intros m ps -> Hdef -> Hlen.
    rewrite (bind_Return _ _ _ _ _ (assertParameters_one_fewer _ _ _ _ Hlen)).
    unfold defaultLast. now rewrite Hdef.
Qed.

End DispatchProofs.

(** *** Scenarios *)

Import Scenario.

(** C2 as stated fails.  The provider answers the submission with a hash
    that is not the computed internal hash: the call throws HashMismatch,
    and the pair of hashes written before the submission is in the mapping,
    where [getTransactionReceipt] will find it. *)
Lemma mapping_left_after_HashMismatch :
  remove0x (keccak256 lib internalTx) <> remove0x "0xdead"
  /\ snd (DefaultWeb3Handler.sendRawTransactionString lib (handler true "0xdead")
            rawOvmTx emptyWorld)
     = Throw HashMismatch
  /\ hashMapping
       (fst (DefaultWeb3Handler.sendRawTransactionString lib (handler true "0xdead")
               rawOvmTx emptyWorld))
       !! add0x (keccak256 lib rawOvmTx)
     = Some (add0x (keccak256 lib internalTx)).
Proof.
  split; [|split].
  - apply String.eqb_neq. vm_compute. reflexivity.
  - vm_compute. reflexivity.
  - vm_compute. reflexivity.
Qed.

(** C2 on the same submission. *)
Lemma sendRawTransaction_hash_check_witness :
  DefaultWeb3Handler.ovmTxToInternalTx lib (handler true "0xdead") rawOvmTx emptyWorld
    = (emptyWorld, Return internalTx)
  /\ remove0x (keccak256 lib internalTx) <> remove0x "0xdead"
  /\ DefaultWeb3Handler.sendRawTransactionString lib (handler true "0xdead")
       rawOvmTx emptyWorld
     = (submitted lib emptyWorld rawOvmTx internalTx, Throw HashMismatch).
Proof.
  assert (Hne : remove0x (keccak256 lib internalTx) <> remove0x "0xdead").
  { apply String.eqb_neq. vm_compute. reflexivity. }
  split; [reflexivity|]. split; [exact Hne|].
  exact (proj1 (sendRawTransaction_hash_check lib (handler true "0xdead")
                  rawOvmTx emptyWorld internalTx "0xdead" eq_refl eq_refl eq_refl)
           Hne).
Defined.

(** C7 on a handler whose execution manager rejects the write. *)
Lemma mapping_failure_stops_witness :
  DefaultWeb3Handler.ovmTxToInternalTx lib (handler false "0xdead") rawOvmTx emptyWorld
    = (emptyWorld, Return internalTx)
  /\ DefaultWeb3Handler.sendRawTransactionString lib (handler false "0xdead")
       rawOvmTx emptyWorld
     = (emptyWorld, Throw MappingPersistError).
Proof.
  split; [reflexivity|].
  exact (proj1 (mapping_failure_stops lib (handler false "0xdead")
                  rawOvmTx emptyWorld internalTx eq_refl eq_refl)).
Defined.

(** C6 as stated fails.  The timestamp of the execution manager's tests,
    30 zero bytes followed by 0x1111, cannot be packed: the word the handler
    packs in its place is zero. *)
Lemma nonzero_timestamp_not_packed :
  DefaultWeb3Handler.getExecutionMgrTxData lib ovmAddress "0xabcd"
  <> packCalldata (executeCallMethodId lib)
       (repeatString "00" 30 +:+ "1111") (repeatString "00" 32)
       (remove0x ovmAddress) (remove0x "0xabcd")
  /\ timestamp (unpackCalldata
                  (DefaultWeb3Handler.getExecutionMgrTxData lib ovmAddress "0xabcd"))
     <> repeatString "00" 30 +:+ "1111".
Proof.
  split; apply String.eqb_neq; vm_compute; reflexivity.
Qed.

(** C6 on a 20-byte entrypoint. *)
Lemma packing_round_trip_witness :
  String.length (executeCallMethodId lib) = 8%nat
  /\ String.length (remove0x ovmAddress) = 40%nat
  /\ unpackCalldata (DefaultWeb3Handler.getExecutionMgrTxData lib ovmAddress "0xabcd")
     = {| selector := executeCallMethodId lib;
          timestamp := repeatString "00" 32;
          queueOrigin := repeatString "00" 32;
          entrypoint := remove0x ovmAddress;
          calldata := remove0x "0xabcd" |}.
Proof.
  split; [reflexivity|]. split; [reflexivity|].
  exact (proj2 (packing_round_trip lib ovmAddress "0xabcd" eq_refl eq_refl)).
Defined.

(** C10 on the same packing. *)
Lemma zero_context_forwarded_witness :
  String.length (executeCallMethodId lib) = 8%nat
  /\ zeroContext (DefaultWeb3Handler.getExecutionMgrTxData lib ovmAddress "0xabcd").
Proof.
  split; [reflexivity|].
  exact (proj1 (zero_context_forwarded lib eq_refl) ovmAddress "0xabcd").
Defined.

(** C8 as stated fails.  [eth_getTransactionCount] expects two parameters;
    called with one, it is executed, with 'latest' for the block. *)
Lemma one_parameter_fewer_executes :
  Z.of_nat (List.length [JString ovmAddress])
    <> expectedArity Web3RpcMethods.getTransactionCount
  /\ DefaultWeb3Handler.handleRequest lib (handler true "0x5")
       "eth_getTransactionCount" (Some [JString ovmAddress]) emptyWorld
     = ({| hashMapping := ∅;
           sent := [(Web3RpcMethods.getTransactionCount,
                     JArray [JString ovmAddress; JString "latest"])] |},
        Return (JString "0x5")).
Proof. split; [discriminate | reflexivity]. Qed.

(** C8 on [eth_blockNumber] called with one parameter. *)
Lemma handleRequest_validates_witness :
  resolve lib "eth_blockNumber" = Some Web3RpcMethods.blockNumber
  /\ refused (Some [JString "latest"]) (expectedArity Web3RpcMethods.blockNumber)
  /\ DefaultWeb3Handler.handleRequest lib (handler true "0x5")
       "eth_blockNumber" (Some [JString "latest"]) emptyWorld
     = (emptyWorld, Throw InvalidParametersError).
Proof.
  assert (Href : refused (Some [JString "latest"])
                   (expectedArity Web3RpcMethods.blockNumber)).
  { split; discriminate. }
  split; [reflexivity|]. split; [exact Href|].
  exact (proj1 (proj2 (handleRequest_validates lib (handler true "0x5")
                         "eth_blockNumber" (Some [JString "latest"]) emptyWorld))
           Web3RpcMethods.blockNumber eq_refl Href).
Defined.

End Web3Proofs.

(** ** Further properties of loops *)

(** Once a loop has thrown on the first elements, what follows them does not
    matter. *)
Lemma forOf_app_Throw {S E A B} (body : B -> A -> M S E B) xs ys acc s s' e :
  forOf body xs acc s = (s', Throw e) ->
  forOf body (xs ++ ys) acc s = (s', Throw e).
Proof.
  revert acc s. induction xs as [|x xs IH]; intros acc s Hrun; simpl in *.
  - discriminate.
  - unfold bind in *. destruct (body acc x s) as [s1 [e1|acc1]].
    + exact Hrun.
    + now apply IH.
Qed.

(** ** The state manager: order of calls, shape of a result *)

Module StateManagerCoverage.

Import StateManager.

Section Engine.

Variable heap : ref -> Trace -> StateUpdate.
Variable this : DefaultStateManager.

(** The calls of one pass: some first calls of [stepEvents], all of them
    when the pass returns. *)
Lemma loopBody_calls tx res vu tr :
  exists calls,
    fst (loopBody heap this tx res vu tr) = tr ++ calls
    /\ calls `prefix_of` stepEvents tx vu
    /\ (forall res', snd (loopBody heap this tx res vu tr) = Return res' ->
        calls = stepEvents tx vu).
Proof.
  unfold loopBody.
  destruct (isValidVerifiedStateUpdate vu); simpl.
  2:{ exists []. rewrite app_nil_r. split; [reflexivity|].
      split; [apply prefix_nil | discriminate]. }
  destruct (lte _ _ || gte _ _).
  { exists []. rewrite app_nil_r. split; [reflexivity|].
    split; [apply prefix_nil | discriminate]. }
  unfold bind, awaitGetPlugin, awaitExecuteStateTransition, readPlasmaBlockNumber.
  destruct (getPlugin _ _ _) as [p|].
  2:{ exists [GetPlugin (predicate (stateObject (stateUpdate vu)))].
      split; [reflexivity|]. split; [|discriminate].
      now exists [ExecuteStateTransition (stateUpdate vu) (verifiedBlockNumber vu) tx]. }
  exists (stepEvents tx vu). unfold stepEvents.
  destruct (executeStateTransition _ _ _ _ _) as [c|]; simpl.
  2:{ rewrite <- app_assoc. split; [reflexivity|]. split; [reflexivity|]. discriminate. }
  destruct (strictNe _ _); simpl.
  { rewrite <- app_assoc. split; [reflexivity|]. split; reflexivity. }
  destruct (resultStateUpdate res) as [prev|]; simpl.
  - destruct (negb _); simpl; rewrite <- app_assoc; repeat split; reflexivity.
  - rewrite <- app_assoc. repeat split; reflexivity.
Qed.

Lemma forOf_loopBody_calls tx vus : forall res tr,
  exists calls,
    fst (forOf (loopBody heap this tx) vus res tr) = tr ++ calls
    /\ calls `prefix_of` flat_map (stepEvents tx) vus
    /\ (forall res', snd (forOf (loopBody heap this tx) vus res tr) = Return res' ->
        calls = flat_map (stepEvents tx) vus).
Proof.
  induction vus as [|vu vus IH]; intros res tr.
  - exists []. simpl. rewrite app_nil_r. repeat split. reflexivity.
  - rewrite forOf_cons. unfold bind.
    change (flat_map (stepEvents tx) (vu :: vus))
      with (stepEvents tx vu ++ flat_map (stepEvents tx) vus).
    destruct (loopBody_calls tx res vu tr) as (c1 & Hfst & Hpre & Hall).
    destruct (loopBody heap this tx res vu tr) as [tr1 [e|res1]] eqn:Hstep;
      simpl in Hfst; subst tr1.
    + exists c1. split; [reflexivity|]. split; [|discriminate].
      now apply prefix_app_r.
    + specialize (Hall res1 eq_refl). subst c1.
      destruct (IH res1 (tr ++ stepEvents tx vu)) as (c2 & Hfst2 & Hpre2 & Hall2).
      exists (stepEvents tx vu ++ c2). rewrite Hfst2, <- app_assoc.
      split; [reflexivity|]. split.
      * now apply prefix_app.
      * intros res' Hret. now rewrite (Hall2 res' Hret).
Qed.

(** X1.  Whatever the outcome, the calls [executeTransaction] makes are
    first calls of this sequence: the query of the store, then for each
    returned update in the order of the store, the lookup of its plugin
    followed by the state transition of that plugin. *)
Theorem calls_in_store_order tx tr vus :
  getVerifiedStateUpdates (stateDB this) tr
    (start (txRange tx)) (end_ (txRange tx)) = Some vus ->
  exists calls,
    fst (executeTransaction heap this tx tr) = tr ++ calls
    /\ calls `prefix_of`
         (GetVerifiedStateUpdates (start (txRange tx)) (end_ (txRange tx))
          :: flat_map (stepEvents tx) vus).
Proof.
  intros Hdb. destruct (isValidTransaction tx) eqn:Htx.
  - rewrite (StateManagerProofs.executeTransaction_unfold heap this _ _ _ Htx Hdb).
    destruct (forOf_loopBody_calls tx vus emptyResult
                (tr ++ [GetVerifiedStateUpdates (start (txRange tx)) (end_ (txRange tx))]))
      as (calls & Hfst & Hpre & _).
    exists (GetVerifiedStateUpdates (start (txRange tx)) (end_ (txRange tx)) :: calls).
    rewrite Hfst, <- app_assoc. split; [reflexivity|].
    now apply (prefix_app [_]).
  - exists []. unfold executeTransaction. rewrite Htx. simpl.
    rewrite app_nil_r. split; [reflexivity | apply prefix_nil].
Qed.

(** A candidate already chosen stays the result of the loop. *)
Lemma forOf_keeps_candidate tx vus : forall res tr tr' res' c,
  resultStateUpdate res = Some c ->
  forOf (loopBody heap this tx) vus res tr = (tr', Return res') ->
  resultStateUpdate res' = Some c.
Proof.
  induction vus as [|vu vus IH]; intros res tr tr' res' c Hc Hrun.
  - simpl in Hrun. unfold ret in Hrun. now inversion Hrun; subst.
  - rewrite forOf_cons in Hrun.
    apply bind_Return_inv in Hrun as (tr1 & res1 & Hstep & Hrest).
    apply StateManagerProofs.loopBody_Return_inv
      in Hstep as (_ & _ & _ & _ & c1 & Hc1 & _ & [Hnone|Hsome]).
    + congruence.
    + apply (IH _ _ _ _ c) in Hrest; [assumption|]. congruence.
Qed.

(** Each update of a loop that returns was checked against the object of
    the result, at some moment of the loop. *)
Lemma forOf_loopBody_blocks tx vus : forall res tr tr' res',
  forOf (loopBody heap this tx) vus res tr = (tr', Return res') ->
  (vus = [] -> resultStateUpdate res' = resultStateUpdate res)
  /\ forall vu, vu ∈ vus ->
       exists c trv, resultStateUpdate res' = Some c
                 /\ tr `prefix_of` trv /\ trv `prefix_of` tr'
                 /\ blockNumberRefused heap c trv vu = false.
Proof.
  induction vus as [|vu0 vus IH]; intros res tr tr' res' Hrun.
  - simpl in Hrun. unfold ret in Hrun. inversion Hrun; subst.
    split; [reflexivity|]. intros vu Hin. now apply elem_of_nil in Hin.
  - split; [discriminate|].
    rewrite forOf_cons in Hrun.
    apply bind_Return_inv in Hrun as (tr1 & res1 & Hstep & Hrest).
    apply StateManagerProofs.loopBody_Return_inv
      in Hstep as (_ & _ & _ & Htr1 & c1 & Hc1 & Hb1 & _).
    pose proof (forOf_keeps_candidate _ _ _ _ _ _ _ Hc1 Hrest) as Hkeep.
    destruct (forOf_loopBody_calls tx vus res1 tr1) as (calls & Hfst & _).
    rewrite Hrest in Hfst. simpl in Hfst.
    assert (Hp1 : tr `prefix_of` tr1) by (subst tr1; now apply prefix_app_r).
    assert (Hp2 : tr1 `prefix_of` tr') by (subst tr'; now apply prefix_app_r).
    intros vu Hin. apply elem_of_cons in Hin as [->|Hin].
    + exists c1, tr1. repeat split; assumption.
    + destruct (IH _ _ _ _ Hrest) as [_ Hall].
      destruct (Hall vu Hin) as (c & trv & Hc & Hq1 & Hq2 & Hb).
      exists c, trv. repeat split; try assumption.
      now transitivity tr1.
Qed.

(** X2.  When [executeTransaction] returns, every call of the sequence has
    been made, there is one valid range for each update the store returned,
    and the state update of the result is undefined exactly when the store
    returned no update. *)
Theorem success_shape tx tr tr' res :
  executeTransaction heap this tx tr = (tr', Return res) ->
  exists vus,
    getVerifiedStateUpdates (stateDB this) tr
      (start (txRange tx)) (end_ (txRange tx)) = Some vus
    /\ tr' = tr ++ GetVerifiedStateUpdates (start (txRange tx)) (end_ (txRange tx))
                   :: flat_map (stepEvents tx) vus
    /\ List.length (validRanges res) = List.length vus
    /\ (resultStateUpdate res = None <-> vus = []).
Proof.
  intros Hrun.
  apply StateManagerProofs.executeTransaction_Return_inv
    in Hrun as (Htx & vus & Hdb & Hloop).
  exists vus. split; [assumption|].
  destruct (forOf_loopBody_calls tx vus emptyResult
              (tr ++ [GetVerifiedStateUpdates (start (txRange tx)) (end_ (txRange tx))]))
    as (calls & Hfst & _ & Hall).
  rewrite Hloop in Hfst, Hall. simpl in Hfst, Hall.
  rewrite (Hall res eq_refl) in Hfst. rewrite <- app_assoc in Hfst.
  split; [exact Hfst|].
  pose proof (StateManagerProofs.forOf_loopBody_Return_inv heap this _ _ _ _ _ _ Hloop)
    as [Hranges _].
  pose proof (forOf_loopBody_blocks _ _ _ _ _ _ Hloop) as [Hnil Hblocks].
  split.
  - rewrite Hranges. simpl. apply length_map.
  - split.
    + intros Hnone. destruct vus as [|vu vus]; [reflexivity|].
      destruct (Hblocks vu) as (c & trv & Hc & _); [apply list_elem_of_here|].
      congruence.
    + intros ->. now rewrite Hnil.
Qed.

(** X3.  When [executeTransaction] returns over several updates, the one
    object of the result passed the test of line 87 for each of them, at
    some moment of the call.  If that object held the same block number
    throughout the call, and the block numbers are integers below 2^53, that
    number is the verified block number plus one of every update: the
    updates were all verified at the same block. *)
Theorem success_same_verified_block tx tr tr' res :
  executeTransaction heap this tx tr = (tr', Return res) ->
  exists vus,
    getVerifiedStateUpdates (stateDB this) tr
      (start (txRange tx)) (end_ (txRange tx)) = Some vus
    /\ (forall vu, vu ∈ vus ->
          exists c trv, resultStateUpdate res = Some c
                    /\ tr `prefix_of` trv /\ trv `prefix_of` tr'
                    /\ strictNe (plasmaBlockNumber (heap c trv))
                         (verifiedBlockNumber vu + PrimFloat.one)%float = false)
    /\ (forall c candidateBlock,
          resultStateUpdate res = Some c ->
          (forall trv, tr `prefix_of` trv -> trv `prefix_of` tr' ->
             plasmaBlockNumber (heap c trv) = jsNumber candidateBlock) ->
          0 <= candidateBlock < 2 ^ 53 ->
          forall vu verifiedBlock,
            vu ∈ vus ->
            verifiedBlockNumber vu = jsNumber verifiedBlock ->
            0 <= verifiedBlock -> verifiedBlock + 1 < 2 ^ 53 ->
            verifiedBlock + 1 = candidateBlock).
Proof.
  intros Hrun.
  apply StateManagerProofs.executeTransaction_Return_inv
    in Hrun as (Htx & vus & Hdb & Hloop).
  exists vus. split; [assumption|].
  pose proof (forOf_loopBody_blocks _ _ _ _ _ _ Hloop) as [_ Hblocks].
  assert (Hext : forall trv,
            (tr ++ [GetVerifiedStateUpdates (start (txRange tx)) (end_ (txRange tx))])
              `prefix_of` trv -> tr `prefix_of` trv).
  { intros trv Hp. etransitivity; [|exact Hp]. now apply prefix_app_r. }
  split.
  - intros vu Hin. destruct (Hblocks vu Hin) as (c & trv & Hc & Hp1 & Hp2 & Hb).
    exists c, trv. repeat split; auto.
  - intros c a Hc Hheld Ha vu b Hin Hvb Hb Hb1.
    destruct (Hblocks vu Hin) as (c' & trv & Hc' & Hp1 & Hp2 & Hcheck).
    assert (c' = c) by congruence. subst c'.
    unfold blockNumberRefused in Hcheck.
    rewrite (Hheld trv (Hext _ Hp1) Hp2), Hvb in Hcheck.
    rewrite (Doubles.strictNe_jsNumber_succ a b) in Hcheck by lia.
    apply negb_false_iff, Z.eqb_eq in Hcheck. lia.
Qed.

(** X4.  A verified update that is not well-formed is never passed over:
    a call whose store returned one does not return a result, and when the
    loop reaches it the call throws InvalidVerifiedUpdate before its range is
    compared and before any plugin is looked up. *)
Theorem malformed_update_rejected tx tr vus vu :
  getVerifiedStateUpdates (stateDB this) tr
    (start (txRange tx)) (end_ (txRange tx)) = Some vus ->
  vu ∈ vus ->
  isValidVerifiedStateUpdate vu = false ->
  (forall tr' res, executeTransaction heap this tx tr <> (tr', Return res))
  /\ (forall pre post tr1 res,
        isValidTransaction tx = true ->
        vus = pre ++ vu :: post ->
        forOf (loopBody heap this tx) pre emptyResult
          (tr ++ [GetVerifiedStateUpdates (start (txRange tx)) (end_ (txRange tx))])
        = (tr1, Return res) ->
        executeTransaction heap this tx tr = (tr1, Throw InvalidVerifiedUpdate)).
Proof.
  intros Hdb Hin Hbad. split.
  - intros tr' res Hrun.
    apply StateManagerProofs.executeTransaction_Return_inv
      in Hrun as (_ & vus' & Hdb' & Hloop).
    rewrite Hdb in Hdb'. inversion Hdb'; subst vus'.
    apply StateManagerProofs.forOf_loopBody_Return_inv in Hloop as (_ & Hall).
    rewrite Forall_forall in Hall. destruct (Hall vu Hin) as [Hok _]. congruence.
  - intros pre post tr1 res Htx -> Hpre.
    rewrite (StateManagerProofs.executeTransaction_unfold heap this _ _ _ Htx Hdb).
    rewrite (forOf_app_Return _ _ _ _ _ _ _ Hpre).
    rewrite forOf_cons. apply bind_Throw.
    now apply StateManagerProofs.loopBody_invalid.
Qed.

(** X5.  The first failure decides the call: when the loop throws on the
    first updates of the store's answer, the call throws the same error
    after the same calls, whatever updates follow. *)
Theorem first_failure_decides tx tr pre post tr1 e :
  isValidTransaction tx = true ->
  getVerifiedStateUpdates (stateDB this) tr
    (start (txRange tx)) (end_ (txRange tx)) = Some (pre ++ post) ->
  forOf (loopBody heap this tx) pre emptyResult
    (tr ++ [GetVerifiedStateUpdates (start (txRange tx)) (end_ (txRange tx))])
  = (tr1, Throw e) ->
  executeTransaction heap this tx tr = (tr1, Throw e).
Proof.
  intros Htx Hdb Hpre.
  rewrite (StateManagerProofs.executeTransaction_unfold heap this _ _ _ Htx Hdb).
  now apply forOf_app_Throw.
Qed.

(** X6.  Among the candidates of one call, the first is taken as the
    result, and each later one is accepted exactly when it is the very object
    already taken, whatever it holds; the result keeps that object. *)
Theorem candidate_merge tx res vu tr p c :
  isValidVerifiedStateUpdate vu = true ->
  outside tx vu = false ->
  getPlugin (pluginManager this) tr (predicate (stateObject (stateUpdate vu))) = Some p ->
  executeStateTransition p
    (tr ++ [GetPlugin (predicate (stateObject (stateUpdate vu)))])
    (stateUpdate vu) (verifiedBlockNumber vu) tx = Some c ->
  strictNe (plasmaBlockNumber (heap c (tr ++ stepEvents tx vu)))
           (verifiedBlockNumber vu + PrimFloat.one)%float = false ->
  (resultStateUpdate res = None ->
   snd (loopBody heap this tx res vu tr)
   = Return {| resultStateUpdate := Some c;
               validRanges := validRanges res ++ [validRange tx vu] |})
  /\ (forall previous, resultStateUpdate res = Some previous ->
        (previous = c ->
         snd (loopBody heap this tx res vu tr)
         = Return {| resultStateUpdate := Some previous;
                     validRanges := validRanges res ++ [validRange tx vu] |})
        /\ (previous <> c ->
            snd (loopBody heap this tx res vu tr) = Throw InconsistentTransition)).
Proof.
  intros Hv Ho Hp Hc Hb.
  rewrite (StateManagerProofs.loopBody_transitioned heap this _ _ _ _ _ _ Hv Ho Hp Hc).
  unfold blockNumberRefused. rewrite Hb. simpl. unfold merged, strictEq. split.
  - intros ->. reflexivity.
  - intros previous ->. split.
    + intros ->. now rewrite Nat.eqb_refl.
    + intros Hne. apply Nat.eqb_neq in Hne. now rewrite Hne.
Qed.

End Engine.

(** X7.  [bnMin] returns the lesser and [bnMax] the greater of two numbers,
    as [BN.min] and [BN.max] do in the state manager. *)
Theorem bnMin_bnMax_extrema a b :
  CoreUtils.bnMin a b = Z.min a b
  /\ CoreUtils.bnMax a b = Z.max a b
  /\ CoreUtils.bnMin a b = BigNum_min a b
  /\ CoreUtils.bnMax a b = BigNum_max a b.
Proof.
  unfold CoreUtils.bnMin, CoreUtils.bnMax, BigNum_min, BigNum_max.
  rewrite Z.gtb_ltb.
  destruct (Z.ltb_spec a b), (Z.ltb_spec b a); repeat split; lia.
Qed.

(** *** Scenarios *)

Import Scenario.

(** X1 on the scenario of the spec: one update over [0, 100) for a
    transaction over [10, 50). *)
Lemma calls_in_store_order_witness :
  executeTransaction (allEqual (update 10 50 6))
    (manager [verified 0 100 5] (sameObject 0%nat)) (transaction 10 50) []
  = (asked 10 50 ++ stepEvents (transaction 10 50) (verified 0 100 5),
     Return {| resultStateUpdate := Some 0%nat;
               validRanges := [ {| start := 10; end_ := 50 |} ] |})
  /\ exists calls,
       asked 10 50 ++ stepEvents (transaction 10 50) (verified 0 100 5) = [] ++ calls
       /\ calls `prefix_of`
            (GetVerifiedStateUpdates 10 50
             :: flat_map (stepEvents (transaction 10 50)) [verified 0 100 5]).
Proof.
  split; [reflexivity|].
  exact (calls_in_store_order (allEqual (update 10 50 6))
           (manager [verified 0 100 5] (sameObject 0%nat)) (transaction 10 50) []
           [verified 0 100 5] eq_refl).
Defined.

(** X2 on a transaction over [0, 50) that spans two updates. *)
Lemma success_shape_witness :
  executeTransaction (allEqual (update 0 50 6))
    (manager [verified 0 30 5; verified 30 50 5] (sameObject 0%nat))
    (transaction 0 50) []
  = (asked 0 50 ++ stepEvents (transaction 0 50) (verified 0 30 5)
                ++ stepEvents (transaction 0 50) (verified 30 50 5),
     Return {| resultStateUpdate := Some 0%nat;
               validRanges := [ {| start := 0; end_ := 30 |};
                                {| start := 30; end_ := 50 |} ] |})
  /\ exists vus,
       Some [verified 0 30 5; verified 30 50 5] = Some vus
       /\ asked 0 50 ++ stepEvents (transaction 0 50) (verified 0 30 5)
                     ++ stepEvents (transaction 0 50) (verified 30 50 5)
          = [] ++ GetVerifiedStateUpdates 0 50
                  :: flat_map (stepEvents (transaction 0 50)) vus
       /\ List.length [ {| start := 0; end_ := 30 |}; {| start := 30; end_ := 50 |} ]
          = List.length vus
       /\ (Some 0%nat = None <-> vus = []).
Proof.
  split; [reflexivity|].
  exact (success_shape (allEqual (update 0 50 6))
           (manager [verified 0 30 5; verified 30 50 5] (sameObject 0%nat))
           (transaction 0 50) [] _ _ eq_refl).
Defined.

(** X3 on the same transaction: both updates were verified at block 5. *)
Lemma success_same_verified_block_witness :
  executeTransaction (allEqual (update 0 50 6))
    (manager [verified 0 30 5; verified 30 50 5] (sameObject 0%nat))
    (transaction 0 50) []
  = (asked 0 50 ++ stepEvents (transaction 0 50) (verified 0 30 5)
                ++ stepEvents (transaction 0 50) (verified 30 50 5),
     Return {| resultStateUpdate := Some 0%nat;
               validRanges := [ {| start := 0; end_ := 30 |};
                                {| start := 30; end_ := 50 |} ] |})
  /\ exists vus,
       Some [verified 0 30 5; verified 30 50 5] = Some vus
       /\ (forall vu, vu ∈ vus ->
             exists c trv, Some 0%nat = Some c
                       /\ [] `prefix_of` trv
                       /\ trv `prefix_of`
                            (asked 0 50 ++ stepEvents (transaction 0 50) (verified 0 30 5)
                                        ++ stepEvents (transaction 0 50) (verified 30 50 5))
                       /\ strictNe (plasmaBlockNumber (allEqual (update 0 50 6) c trv))
                            (verifiedBlockNumber vu + PrimFloat.one)%float = false)
       /\ (forall c candidateBlock,
             Some 0%nat = Some c ->
             (forall trv, [] `prefix_of` trv ->
                trv `prefix_of`
                  (asked 0 50 ++ stepEvents (transaction 0 50) (verified 0 30 5)
                              ++ stepEvents (transaction 0 50) (verified 30 50 5)) ->
                plasmaBlockNumber (allEqual (update 0 50 6) c trv)
                = jsNumber candidateBlock) ->
             0 <= candidateBlock < 2 ^ 53 ->
             forall vu verifiedBlock,
               vu ∈ vus ->
               verifiedBlockNumber vu = jsNumber verifiedBlock ->
               0 <= verifiedBlock -> verifiedBlock + 1 < 2 ^ 53 ->
               verifiedBlock + 1 = candidateBlock).
Proof.
  split; [reflexivity|].
  exact (success_same_verified_block (allEqual (update 0 50 6))
           (manager [verified 0 30 5; verified 30 50 5] (sameObject 0%nat))
           (transaction 0 50) [] _ _ eq_refl).
Defined.

(** X4 on an update over the empty range [60, 60). *)
Lemma malformed_update_rejected_witness :
  isValidVerifiedStateUpdate (verified 60 60 5) = false
  /\ executeTransaction (allEqual (update 10 50 6))
       (manager [verified 60 60 5] (sameObject 0%nat)) (transaction 10 50) []
     = (asked 10 50, Throw InvalidVerifiedUpdate).
Proof.
  split; [reflexivity|].
  refine (proj2 (malformed_update_rejected (allEqual (update 10 50 6))
           (manager [verified 60 60 5] (sameObject 0%nat)) (transaction 10 50) []
           [verified 60 60 5] (verified 60 60 5) eq_refl _ eq_refl)
           [] [] (asked 10 50) emptyResult eq_refl eq_refl eq_refl).
  apply list_elem_of_here.
Defined.

(** X5: an update outside the range, followed by one inside. *)
Lemma first_failure_decides_witness :
  forOf (loopBody (allEqual (update 10 50 6))
           (manager [verified 60 100 5; verified 10 50 5] (sameObject 0%nat))
           (transaction 10 50))
    [verified 60 100 5] emptyResult (asked 10 50)
  = (asked 10 50, Throw RangeMismatch)
  /\ executeTransaction (allEqual (update 10 50 6))
       (manager [verified 60 100 5; verified 10 50 5] (sameObject 0%nat))
       (transaction 10 50) []
     = (asked 10 50, Throw RangeMismatch).
Proof.
  split; [reflexivity|].
  exact (first_failure_decides (allEqual (update 10 50 6))
           (manager [verified 60 100 5; verified 10 50 5] (sameObject 0%nat))
           (transaction 10 50) [] [verified 60 100 5] [verified 10 50 5]
           (asked 10 50) RangeMismatch eq_refl eq_refl eq_refl).
Defined.

(** X6: the object 2 is the result so far, and the predicate answers the
    second update with the object 4. *)
Lemma candidate_merge_witness :
  strictNe
    (plasmaBlockNumber
       (allEqual (update 0 50 6) 4%nat
          (asked 0 50 ++ stepEvents (transaction 0 50) (verified 0 30 5)
                      ++ stepEvents (transaction 0 50) (verified 30 50 5))))
    (verifiedBlockNumber (verified 30 50 5) + PrimFloat.one)%float = false
  /\ snd (loopBody (allEqual (update 0 50 6))
            (manager [verified 0 30 5; verified 30 50 5] freshObject)
            (transaction 0 50)
            {| resultStateUpdate := Some 2%nat;
               validRanges := [ {| start := 0; end_ := 30 |} ] |}
            (verified 30 50 5)
            (asked 0 50 ++ stepEvents (transaction 0 50) (verified 0 30 5)))
     = Throw InconsistentTransition.
Proof.
  split; [reflexivity|].
  refine (proj2 (proj2 (candidate_merge (allEqual (update 0 50 6))
           (manager [verified 0 30 5; verified 30 50 5] freshObject)
           (transaction 0 50)
           {| resultStateUpdate := Some 2%nat;
              validRanges := [ {| start := 0; end_ := 30 |} ] |}
           (verified 30 50 5)
           (asked 0 50 ++ stepEvents (transaction 0 50) (verified 0 30 5))
           freshObject 4%nat eq_refl eq_refl eq_refl eq_refl eq_refl)
           2%nat eq_refl) _).
  discriminate.
Defined.

End StateManagerCoverage.

(** ** The Web3 handler: effects, receipts and dispatch *)

Module Web3Coverage.

Import Web3 Web3Effects.

(** Case analysis on every [match] of the goal, in turn. *)
Ltac cases_of_goal :=
  repeat match goal with
  | |- context [match ?x with _ => _ end] =>
      lazymatch x with
      | context [match _ with _ => _ end] => fail
      | _ => destruct x; simpl
      end
  end.

Ltac solve_keeps :=
  intros ?w; simpl; cases_of_goal; reflexivity.

Ltac solve_sends :=
  intros ?w; simpl; cases_of_goal;
  first [ exists []; rewrite app_nil_r; split; [reflexivity | simpl; lia]
        | eexists [_]; split; [reflexivity | simpl; lia] ].

Section Methods.

Variable lib : Imports.
Variable this : DefaultWeb3Handler.t.

Lemma blockNumber_effects :
  keepsMapping (DefaultWeb3Handler.blockNumber this)
  /\ sendsAtMost 1 (DefaultWeb3Handler.blockNumber this).
Proof.
  unfold DefaultWeb3Handler.blockNumber, DefaultWeb3Handler.providerSend.
  split; [solve_keeps | solve_sends].
Qed.

Lemma networkVersion_effects :
  keepsMapping (DefaultWeb3Handler.networkVersion this)
  /\ sendsAtMost 1 (DefaultWeb3Handler.networkVersion this).
Proof.
  unfold DefaultWeb3Handler.networkVersion, DefaultWeb3Handler.providerSend.
  split; [solve_keeps | solve_sends].
Qed.

Lemma getTransactionCount_effects a b :
  keepsMapping (DefaultWeb3Handler.getTransactionCount this a b)
  /\ sendsAtMost 1 (DefaultWeb3Handler.getTransactionCount this a b).
Proof.
  unfold DefaultWeb3Handler.getTransactionCount, DefaultWeb3Handler.providerSend.
  split; [solve_keeps | solve_sends].
Qed.

Lemma call_effects a b :
  keepsMapping (DefaultWeb3Handler.call lib this a b)
  /\ sendsAtMost 1 (DefaultWeb3Handler.call lib this a b).
Proof.
  unfold DefaultWeb3Handler.call, DefaultWeb3Handler.providerSend, bind,
    expectString, throw, ret.
  split; [solve_keeps | solve_sends].
Qed.

Lemma estimateGas_effects a b :
  keepsMapping (DefaultWeb3Handler.estimateGas lib this a b)
  /\ sendsAtMost 1 (DefaultWeb3Handler.estimateGas lib this a b).
Proof.
  unfold DefaultWeb3Handler.estimateGas, DefaultWeb3Handler.providerSend, bind,
    expectString, throw, ret.
  split; [solve_keeps | solve_sends].
Qed.

Lemma gasPrice_effects :
  keepsMapping DefaultWeb3Handler.gasPrice
  /\ sendsAtMost 1 DefaultWeb3Handler.gasPrice.
Proof.
  unfold DefaultWeb3Handler.gasPrice, ret. split; [solve_keeps | solve_sends].
Qed.

Lemma getExecutionManagerAddress_effects :
  keepsMapping (DefaultWeb3Handler.getExecutionManagerAddress this)
  /\ sendsAtMost 1 (DefaultWeb3Handler.getExecutionManagerAddress this).
Proof.
  unfold DefaultWeb3Handler.getExecutionManagerAddress, ret.
  split; [solve_keeps | solve_sends].
Qed.

Lemma getCode_effects a b :
  keepsMapping (DefaultWeb3Handler.getCode this a b)
  /\ sendsAtMost 1 (DefaultWeb3Handler.getCode this a b).
Proof.
  unfold DefaultWeb3Handler.getCode, DefaultWeb3Handler.providerSend, bind,
    expectString, throw, ret.
  split; [solve_keeps | solve_sends].
Qed.

Lemma getTransactionReceipt_effects a :
  keepsMapping (DefaultWeb3Handler.getTransactionReceipt lib this a)
  /\ sendsAtMost 1 (DefaultWeb3Handler.getTransactionReceipt lib this a).
Proof.
  unfold DefaultWeb3Handler.getTransactionReceipt,
    DefaultWeb3Handler.internalTxReceiptToOvmTxReceipt,
    DefaultWeb3Handler.getInternalTxHash,
    DefaultWeb3Handler.providerSend, bind, expectString, throw, ret.
  split; [solve_keeps | solve_sends].
Qed.

(** *** sendRawTransaction: what is stored and what is sent *)

(** Once the internal transaction is built and the write of the pair is
    accepted, the world is that of a submission, however the call ends. *)
Lemma sendRawTransactionString_world rawOvmTx w signed :
  DefaultWeb3Handler.ovmTxToInternalTx lib this rawOvmTx w = (w, Return signed) ->
  Contract.mapOvmTransactionHashToInternalTransactionHash
    (DefaultWeb3Handler.executionManager this) w
    (add0x lib (keccak256 lib rawOvmTx)) (add0x lib (keccak256 lib signed)) = true ->
  fst (DefaultWeb3Handler.sendRawTransactionString lib this rawOvmTx w)
  = submitted lib w rawOvmTx signed.
Proof.
  intros Hitx Hmap.
  rewrite (Web3Proofs.sendRawTransactionString_built _ _ _ _ _ Hitx).
  unfold bind, DefaultWeb3Handler.mapOvmTxHashToInternalTxHash,
    DefaultWeb3Handler.providerSend, expectString, throw, ret.
  rewrite Hmap. simpl. unfold submitted.
  destruct (Web3Provider.send _ _ _ _) as [[|returned| |]|]; simpl; try reflexivity.
  now destruct (negb _).
Qed.

(** The call returns only after an accepted write and a submission. *)
Lemma sendRawTransactionString_Return_inv rawOvmTx w w' h :
  DefaultWeb3Handler.sendRawTransactionString lib this rawOvmTx w = (w', Return h) ->
  exists signed,
    DefaultWeb3Handler.ovmTxToInternalTx lib this rawOvmTx w = (w, Return signed)
    /\ w' = submitted lib w rawOvmTx signed
    /\ h = keccak256 lib rawOvmTx.
Proof.
  intros Hrun.
  destruct (DefaultWeb3Handler.ovmTxToInternalTx lib this rawOvmTx w)
    as [w0 [e|signed]] eqn:Hitx.
  { unfold DefaultWeb3Handler.sendRawTransactionString in Hrun.
    rewrite (bind_Throw _ _ _ _ _ Hitx) in Hrun. discriminate. }
  pose proof (Web3Proofs.ovmTxToInternalTx_world _ _ _ _ _ _ Hitx) as ->.
  exists signed. split; [reflexivity|].
  destruct (Contract.mapOvmTransactionHashToInternalTransactionHash
              (DefaultWeb3Handler.executionManager this) w
              (add0x lib (keccak256 lib rawOvmTx))
              (add0x lib (keccak256 lib signed))) eqn:Hmap.
  - pose proof (sendRawTransactionString_world _ _ _ Hitx Hmap) as Hw.
    rewrite Hrun in Hw. simpl in Hw. split; [assumption|].
    rewrite (Web3Proofs.sendRawTransactionString_built _ _ _ _ _ Hitx) in Hrun.
    unfold bind, DefaultWeb3Handler.mapOvmTxHashToInternalTxHash,
      DefaultWeb3Handler.providerSend, expectString, throw, ret in Hrun.
    rewrite Hmap in Hrun. simpl in Hrun.
    destruct (Web3Provider.send _ _ _ _) as [[|returned| |]|]; simpl in Hrun;
      try discriminate.
    destruct (negb _); [discriminate|]. now inversion Hrun.
  - rewrite (Web3Proofs.sendRawTransactionString_built _ _ _ _ _ Hitx) in Hrun.
    unfold bind, DefaultWeb3Handler.mapOvmTxHashToInternalTxHash in Hrun.
    rewrite Hmap in Hrun. discriminate.
Qed.

(** X8.  However [sendRawTransaction] ends, it touches no pair of the
    mapping but that of the OVM hash of its argument, and it has sent
    nothing, or one submission whose pair is in the mapping: the write comes
    before the submission. *)
Theorem mapping_written_before_submission rawOvmTx w :
  (forall k, k <> add0x lib (keccak256 lib rawOvmTx) ->
     hashMapping (fst (DefaultWeb3Handler.sendRawTransactionString lib this rawOvmTx w))
       !! k
     = hashMapping w !! k)
  /\ (sent (fst (DefaultWeb3Handler.sendRawTransactionString lib this rawOvmTx w))
      = sent w
      \/ exists signed,
           sent (fst (DefaultWeb3Handler.sendRawTransactionString lib this rawOvmTx w))
           = sent w ++ [(Web3RpcMethods.sendRawTransaction, JString signed)]
           /\ hashMapping
                (fst (DefaultWeb3Handler.sendRawTransactionString lib this rawOvmTx w))
                !! add0x lib (keccak256 lib rawOvmTx)
              = Some (add0x lib (keccak256 lib signed))).
Proof.
  destruct (DefaultWeb3Handler.ovmTxToInternalTx lib this rawOvmTx w)
    as [w0 [e|signed]] eqn:Hitx.
  { pose proof (Web3Proofs.ovmTxToInternalTx_world _ _ _ _ _ _ Hitx) as ->.
    unfold DefaultWeb3Handler.sendRawTransactionString.
    rewrite (bind_Throw _ _ _ _ _ Hitx). simpl. split; [reflexivity | now left]. }
  pose proof (Web3Proofs.ovmTxToInternalTx_world _ _ _ _ _ _ Hitx) as ->.
  destruct (Contract.mapOvmTransactionHashToInternalTransactionHash
              (DefaultWeb3Handler.executionManager this) w
              (add0x lib (keccak256 lib rawOvmTx))
              (add0x lib (keccak256 lib signed))) eqn:Hmap.
  - rewrite (sendRawTransactionString_world _ _ _ Hitx Hmap). unfold submitted.
    simpl. split.
    + intros k Hk. now apply lookup_insert_ne.
    + right. exists signed. split; [reflexivity | apply lookup_insert_eq].
  - rewrite (Web3Proofs.sendRawTransactionString_built _ _ _ _ _ Hitx).
    unfold bind, DefaultWeb3Handler.mapOvmTxHashToInternalTxHash.
    rewrite Hmap. simpl. split; [reflexivity | now left].
Qed.

(** X9.  When the internal transaction cannot be built (the raw transaction
    does not parse, or the wallet fails), [sendRawTransaction] throws that
    error and the world is as it was: nothing is stored, nothing is sent. *)
Theorem unbuilt_transaction_rejected rawOvmTx w w0 e :
  DefaultWeb3Handler.ovmTxToInternalTx lib this rawOvmTx w = (w0, Throw e) ->
  DefaultWeb3Handler.sendRawTransactionString lib this rawOvmTx w = (w, Throw e)
  /\ DefaultWeb3Handler.sendRawTransaction lib this (JString rawOvmTx) w
     = (w, Throw e).
Proof.
  intros Hitx.
  pose proof (Web3Proofs.ovmTxToInternalTx_world _ _ _ _ _ _ Hitx) as ->.
  assert (Hrun : DefaultWeb3Handler.sendRawTransactionString lib this rawOvmTx w
                 = (w, Throw e)).
  { unfold DefaultWeb3Handler.sendRawTransactionString.
    now rewrite (bind_Throw _ _ _ _ _ Hitx). }
  split; [exact Hrun|].
  unfold DefaultWeb3Handler.sendRawTransaction, bind, expectString, ret.
  now rewrite Hrun.
Qed.

(** X10.  The internal transaction that is signed for a raw OVM transaction
    goes to the execution manager with gas price 0 and value 0, takes the
    gas limit of the OVM transaction and the wallet's transaction count plus
    one as nonce, and carries the calldata packed for the OVM destination,
    or for the zero address when the OVM transaction creates a contract. *)
Theorem internal_transaction_fields rawOvmTx w w' signed :
  DefaultWeb3Handler.ovmTxToInternalTx lib this rawOvmTx w = (w', Return signed) ->
  exists ovmTx count,
    parseTransaction lib rawOvmTx = Some ovmTx
    /\ Wallet.getTransactionCount (DefaultWeb3Handler.wallet this) w = Some count
    /\ Wallet.sign (DefaultWeb3Handler.wallet this)
         {| InternalTx.nonce := count + 1;
            InternalTx.gasPrice := 0;
            InternalTx.gasLimit := OvmTx.gasLimit ovmTx;
            InternalTx.to := Contract.address (DefaultWeb3Handler.executionManager this);
            InternalTx.value := 0;
            InternalTx.data :=
              DefaultWeb3Handler.getExecutionMgrTxData lib
                (default (ZERO_ADDRESS lib) (OvmTx.to ovmTx)) (OvmTx.data ovmTx) |}
       = Some signed.
Proof.
  unfold DefaultWeb3Handler.ovmTxToInternalTx, bind, throw, ret.
  destruct (parseTransaction lib rawOvmTx) as [ovmTx|]; [|discriminate].
  destruct (Wallet.getTransactionCount _ w) as [n|]; [|discriminate].
  destruct (Wallet.sign _ _) as [s|] eqn:Hsign; [|discriminate].
  intros Heq. inversion Heq; subst. exists ovmTx, n.
  split; [reflexivity|]. split; [reflexivity|].
  rewrite <- Hsign. now destruct (OvmTx.to ovmTx).
Qed.

(** X11.  After a [sendRawTransaction] that returned a hash, and with an
    execution manager that reads what was stored, [getTransactionReceipt] of
    that hash asks the provider for the receipt of the internal hash of the
    transaction that was submitted. *)
Theorem receipt_of_submitted rawOvmTx w w' h :
  DefaultWeb3Handler.sendRawTransactionString lib this rawOvmTx w = (w', Return h) ->
  Contract.getInternalTransactionHash (DefaultWeb3Handler.executionManager this) w'
    (add0x lib h) = hashMapping w' !! add0x lib h ->
  exists signed,
    sent w' = sent w ++ [(Web3RpcMethods.sendRawTransaction, JString signed)]
    /\ sent (fst (DefaultWeb3Handler.getTransactionReceipt lib this (JString h) w'))
       = sent w' ++ [(Web3RpcMethods.getTransactionReceipt,
                      JArray [JString (add0x lib (keccak256 lib signed))])].
Proof.
  intros Hrun Hread.
  apply sendRawTransactionString_Return_inv in Hrun as (signed & _ & -> & ->).
  exists signed. split; [reflexivity|].
  unfold DefaultWeb3Handler.getTransactionReceipt,
    DefaultWeb3Handler.getInternalTxHash, bind, expectString, ret.
  rewrite Hread. unfold submitted at 1 2. simpl. rewrite lookup_insert_eq.
  unfold DefaultWeb3Handler.providerSend,
    DefaultWeb3Handler.internalTxReceiptToOvmTxReceipt, throw, ret.
  destruct (Web3Provider.send _ _ _ _) as [[| |fields|]|]; reflexivity.
Qed.

(** *** getCode *)

(** X12.  [getCode] supports only the tag 'latest': with any other block
    argument it throws before it asks anything of the execution manager or
    the provider; with 'latest' it asks the provider for the code at the
    address the execution manager gives for the OVM address. *)
Theorem getCode_latest_only address defaultBlock w :
  (defaultBlock <> JString "latest" ->
   DefaultWeb3Handler.getCode this address defaultBlock w
   = (w, Throw UnsupportedBlockTag))
  /\ (forall ovmAddress codeContractAddress,
        defaultBlock = JString "latest" ->
        address = JString ovmAddress ->
        Contract.getCodeContractAddress (DefaultWeb3Handler.executionManager this)
          w ovmAddress = Some codeContractAddress ->
        DefaultWeb3Handler.getCode this address defaultBlock w
        = DefaultWeb3Handler.providerSend this Web3RpcMethods.getCode
            (JArray [JString codeContractAddress; JString "latest"]) w).
Proof.
  unfold DefaultWeb3Handler.getCode. split.
  - intros Hne. destruct defaultBlock as [|tag| |]; try reflexivity.
    destruct (String.eqb_spec tag "latest") as [->|Htag]; [contradiction|].
    reflexivity.
  - intros ovmAddress codeContractAddress -> -> Hem. simpl.
    unfold bind, expectString, ret. now rewrite Hem.
Qed.

(** *** Receipts *)

Lemma lookupField_setField_eq fields key v :
  lookupField (setField fields key v) key = v.
Proof.
  induction fields as [|[k x] rest IH]; simpl.
  - now rewrite String.eqb_refl.
  - destruct (String.eqb k key) eqn:Hk; simpl; rewrite Hk; [reflexivity | exact IH].
Qed.

Lemma lookupField_setField_ne fields key v other :
  key <> other ->
  lookupField (setField fields key v) other = lookupField fields other.
Proof.
  intros Hne. induction fields as [|[k x] rest IH]; simpl.
  - apply String.eqb_neq in Hne. now rewrite Hne.
  - destruct (String.eqb_spec k key) as [->|Hk]; simpl.
    + apply String.eqb_neq in Hne. now rewrite Hne.
    + now rewrite IH.
Qed.

(** X13.  The OVM receipt made of an internal receipt has the converted
    logs, the OVM entrypoint as [to], the zero address as [from] and the
    created OVM contract address as [contractAddress]; every other field is
    that of the internal receipt. *)
Theorem receipt_translation fields w :
  exists ovmTxReceipt,
    DefaultWeb3Handler.internalTxReceiptToOvmTxReceipt lib this (JObject fields) w
    = (w, Return ovmTxReceipt)
    /\ getField ovmTxReceipt "logs"
       = ovmLogs (convertInternalLogsToOvmLogs lib
                    (DefaultWeb3Handler.executionManager this)
                    (lookupField fields "logs"))
    /\ getField ovmTxReceipt "to"
       = ovmEntrypoint (convertInternalLogsToOvmLogs lib
                          (DefaultWeb3Handler.executionManager this)
                          (lookupField fields "logs"))
    /\ getField ovmTxReceipt "from" = JString (ZERO_ADDRESS lib)
    /\ getField ovmTxReceipt "contractAddress"
       = ovmCreatedContractAddress
           (convertInternalLogsToOvmLogs lib
              (DefaultWeb3Handler.executionManager this)
              (lookupField fields "logs"))
    /\ forall key,
         key <> "logs"%string -> key <> "to"%string -> key <> "from"%string ->
         key <> "contractAddress"%string ->
         getField ovmTxReceipt key = lookupField fields key.
Proof.
  unfold DefaultWeb3Handler.internalTxReceiptToOvmTxReceipt, ret.
  eexists. split; [reflexivity|]. cbn [getField].
  repeat split.
  - rewrite !lookupField_setField_ne by discriminate.
    apply lookupField_setField_eq.
  - rewrite !lookupField_setField_ne by discriminate.
    apply lookupField_setField_eq.
  - rewrite !lookupField_setField_ne by discriminate.
    apply lookupField_setField_eq.
  - apply lookupField_setField_eq.
  - intros key H1 H2 H3 H4.
    rewrite !lookupField_setField_ne by congruence. reflexivity.
Qed.

(** *** One request of the handler *)

Lemma sendRawTransaction_sends rawOvmTx :
  sendsAtMost 1 (DefaultWeb3Handler.sendRawTransaction lib this rawOvmTx).
Proof.
  intros w. unfold DefaultWeb3Handler.sendRawTransaction, bind, expectString, ret, throw.
  destruct rawOvmTx as [|raw| |];
    try (exists []; rewrite app_nil_r; split; [reflexivity | simpl; lia]).
  assert (Hfst : fst (match DefaultWeb3Handler.sendRawTransactionString lib this raw w with
                      | (s', Return a) => (s', Return (JString a))
                      | (s', Throw e) => (s', Throw e)
                      end)
                 = fst (DefaultWeb3Handler.sendRawTransactionString lib this raw w)).
  { now destruct (DefaultWeb3Handler.sendRawTransactionString lib this raw w)
      as [w1 [e|h]]. }
  rewrite Hfst.
  destruct (Web3Proofs.sendRawTransactionString_sent lib this raw w)
    as [Hs|(itx & ep & cd & signed & _ & _ & Hs)]; rewrite Hs.
  - exists []. rewrite app_nil_r. split; [reflexivity | simpl; lia].
  - eexists [_]. split; [reflexivity | simpl; lia].
Qed.

Lemma assertParameters_world params expected d w :
  fst (assertParameters params expected d w) = w.
Proof.
  unfold assertParameters, ret, throw.
  destruct params as [ps|]; [destruct (_ || _) | destruct (_ =? _)]; reflexivity.
Qed.

Lemma invoke_sends m args :
  sendsAtMost 1
    (@invoke _ (DefaultWeb3Handler.implementsWeb3Handler lib) m this args).
Proof.
  destruct m; simpl.
  - apply blockNumber_effects.
  - apply call_effects.
  - apply estimateGas_effects.
  - apply gasPrice_effects.
  - apply getCode_effects.
  - apply getExecutionManagerAddress_effects.
  - apply getTransactionCount_effects.
  - apply getTransactionReceipt_effects.
  - apply sendRawTransaction_sends.
  - apply networkVersion_effects.
Qed.

Lemma invoke_keeps m args :
  m <> Web3RpcMethods.sendRawTransaction ->
  keepsMapping
    (@invoke _ (DefaultWeb3Handler.implementsWeb3Handler lib) m this args).
Proof.
  intros Hm. destruct m; simpl; try contradiction.
  - apply blockNumber_effects.
  - apply call_effects.
  - apply estimateGas_effects.
  - apply gasPrice_effects.
  - apply getCode_effects.
  - apply getExecutionManagerAddress_effects.
  - apply getTransactionCount_effects.
  - apply getTransactionReceipt_effects.
  - apply networkVersion_effects.
Qed.

(** The world after [handleRequest] is the world after the method of the
    selected [case], or the world as it was. *)
Lemma handleRequest_world method params w :
  fst (DefaultWeb3Handler.handleRequest lib this method params w) = w
  \/ exists m args,
       resolve lib method = Some m
       /\ fst (DefaultWeb3Handler.handleRequest lib this method params w)
          = fst (@invoke _ (DefaultWeb3Handler.implementsWeb3Handler lib) m this args w).
Proof.
  unfold DefaultWeb3Handler.handleRequest.
  rewrite Web3Proofs.handleRequest_dispatch.
  destruct (resolve lib method) as [m|]; [|now left].
  unfold bind.
  pose proof (assertParameters_world params (expectedArity m) (defaultLast m) w) as Hw.
  destruct (assertParameters params (expectedArity m) (defaultLast m) w)
    as [w1 [e|args]]; simpl in Hw; subst w1.
  - now left.
  - right. now exists m, args.
Qed.

(** X14.  A request to the handler sends at most one request to the
    provider, and takes none back: what had been sent is still there, in the
    same order. *)
Theorem one_request_at_most method params w :
  exists new,
    sent (fst (DefaultWeb3Handler.handleRequest lib this method params w))
    = sent w ++ new
    /\ (List.length new <= 1)%nat.
Proof.
  destruct (handleRequest_world method params w) as [Hw|(m & args & _ & Hw)];
    rewrite Hw.
  - exists []. rewrite app_nil_r. split; [reflexivity | simpl; lia].
  - apply invoke_sends.
Qed.

(** X15.  Only [sendRawTransaction] writes to the hash mapping: a request
    that selects any other [case], or none, leaves the mapping as it was. *)
Theorem mapping_written_by_sendRawTransaction_only method params w :
  resolve lib method <> Some Web3RpcMethods.sendRawTransaction ->
  hashMapping (fst (DefaultWeb3Handler.handleRequest lib this method params w))
  = hashMapping w.
Proof.
  intros Hm.
  destruct (handleRequest_world method params w) as [Hw|(m & args & Hres & Hw)];
    rewrite Hw; [reflexivity|].
  apply invoke_keeps. congruence.
Qed.

End Methods.

(** *** Dispatch, whatever the methods do *)

Section Dispatch.

Variable lib : Imports.
Context {H : Type} {implementation : Web3Handler H}.

(** X16.  The arguments [assertParameters] returns are as many as expected
    and begin with the parameters given; the check itself changes
    nothing. *)
Theorem checked_arguments params expected d w w' args :
  assertParameters params expected d w = (w', Return args) ->
  w' = w
  /\ Z.of_nat (List.length args) = expected
  /\ match params with
     | Some ps => ps `prefix_of` args
     | None => args = []
     end.
Proof.
  unfold assertParameters, ret, throw. destruct params as [ps|].
  - destruct (Z.eqb_spec (Z.of_nat (List.length ps)) expected) as [Heq|Hne].
    + rewrite orb_true_r. intros Hr. inversion Hr; subst. now repeat split.
    + rewrite orb_false_r.
      destruct (Z.eqb_spec (Z.of_nat (List.length ps)) (expected - 1)) as [Heq1|Hne1];
        [|discriminate].
      intros Hr. inversion Hr; subst. repeat split.
      * rewrite length_app. simpl. lia.
      * now exists [d].
  - destruct (Z.eqb_spec expected 0) as [->|Hne]; [|discriminate].
    intros Hr. inversion Hr; subst. now repeat split.
Qed.

(** X17.  For the four methods that take a block tag, a request without the
    tag is the request with 'latest'. *)
Theorem omitted_block_is_latest (this : H) method m a w :
  resolve lib method = Some m ->
  takesDefaultBlock m = true ->
  handleRequest lib this method (Some [a]) w
  = handleRequest lib this method (Some [a; JString "latest"]) w.
Proof.
  intros Hres Hdef. rewrite !Web3Proofs.handleRequest_dispatch, Hres.
  assert (Harity : expectedArity m = 2) by (destruct m; try discriminate; reflexivity).
  rewrite (bind_Return _ _ _ _ _
             (Web3Proofs.assertParameters_one_fewer [a] (expectedArity m)
                (defaultLast m) w ltac:(rewrite Harity; reflexivity))).
  rewrite (bind_Return _ _ _ _ _
             (Web3Proofs.assertParameters_exact [a; JString "latest"]
                (expectedArity m) (defaultLast m) w
                ltac:(rewrite Harity; reflexivity))).
  unfold defaultLast. now rewrite Hdef.
Qed.

(** X18.  A request without a parameter array ([null] or [undefined]) is
    served by the methods that expect no parameter, on no argument, and is
    refused with InvalidParametersError by the others. *)
Theorem absent_parameters (this : H) method m w :
  resolve lib method = Some m ->
  handleRequest lib this method None w
  = if expectedArity m =? 0 then invoke m this [] w
    else (w, Throw InvalidParametersError).
Proof.
  intros Hres. rewrite Web3Proofs.handleRequest_dispatch, Hres.
  unfold bind, assertParameters, ret, throw.
  now destruct (expectedArity m =? 0).
Qed.

Lemma find_by_name {A} (f : A -> string) (l : list A) y :
  List.NoDup (List.map f l) -> List.In y l ->
  List.find (fun x => String.eqb (f y) (f x)) l = Some y.
Proof.
  induction l as [|x l IH]; intros Hnd Hin; [contradiction|].
  simpl in *. apply List.NoDup_cons_iff in Hnd as [Hx Hnd].
  destruct Hin as [->|Hin].
  - now rewrite String.eqb_refl.
  - destruct (String.eqb_spec (f y) (f x)) as [Heq|_].
    + exfalso. apply Hx. rewrite <- Heq. now apply List.in_map.
    + now apply IH.
Qed.

Lemma In_cases m : List.In m cases.
Proof. unfold cases. destruct m; simpl; tauto. Qed.

(** X19.  When the ten methods have ten different names, the name of a
    method selects the [case] of that method, and a request under that name
    with the expected number of parameters executes it on them. *)
Theorem name_selects_method (this : H) m ps w :
  List.NoDup (List.map (rpcName lib) cases) ->
  Z.of_nat (List.length ps) = expectedArity m ->
  resolve lib (rpcName lib m) = Some m
  /\ handleRequest lib this (rpcName lib m) (Some ps) w = invoke m this ps w.
Proof.
  intros Hnd Hlen.
  assert (Hres : resolve lib (rpcName lib m) = Some m).
  { unfold resolve. apply find_by_name; [assumption | apply In_cases]. }
  split; [exact Hres|].
  rewrite Web3Proofs.handleRequest_dispatch, Hres.
  now rewrite (bind_Return _ _ _ _ _
                 (Web3Proofs.assertParameters_exact _ _ _ _ Hlen)).
Qed.

End Dispatch.

(** *** The packing *)

(** X20.  The packing keeps calls apart: two calls to 20-byte entrypoints
    that are packed to the same calldata have the same entrypoint and the
    same calldata (each without its 0x). *)
Theorem packing_injective lib ep1 cd1 ep2 cd2 :
  String.length (executeCallMethodId lib) = 8%nat ->
  String.length (remove0x lib ep1) = 40%nat ->
  String.length (remove0x lib ep2) = 40%nat ->
  DefaultWeb3Handler.getExecutionMgrTxData lib ep1 cd1
  = DefaultWeb3Handler.getExecutionMgrTxData lib ep2 cd2 ->
  remove0x lib ep1 = remove0x lib ep2 /\ remove0x lib cd1 = remove0x lib cd2.
Proof.
  intros Hsel H1 H2 Heq.
  apply (f_equal unpackCalldata) in Heq.
  rewrite !Web3Proofs.getExecutionMgrTxData_packCalldata in Heq.
  rewrite !Web3Proofs.unpackCalldata_packCalldata in Heq by (assumption || reflexivity).
  now inversion Heq.
Qed.

(** *** Scenarios *)

Import Scenario.

(** X9 on a raw transaction that does not parse. *)
Lemma unbuilt_transaction_rejected_witness :
  DefaultWeb3Handler.ovmTxToInternalTx lib (handler true "0x5") "f86b" emptyWorld
  = (emptyWorld, Throw ParseFailure)
  /\ DefaultWeb3Handler.sendRawTransactionString lib (handler true "0x5") "f86b"
       emptyWorld
     = (emptyWorld, Throw ParseFailure).
Proof.
  split; [reflexivity|].
  exact (proj1 (unbuilt_transaction_rejected lib (handler true "0x5") "f86b"
                  emptyWorld emptyWorld ParseFailure eq_refl)).
Defined.

(** X10 on the raw transaction of the scenarios. *)
Lemma internal_transaction_fields_witness :
  DefaultWeb3Handler.ovmTxToInternalTx lib (handler true "0x5") rawOvmTx emptyWorld
  = (emptyWorld, Return internalTx)
  /\ exists ovmTx count,
       parseTransaction lib rawOvmTx = Some ovmTx
       /\ Some 0 = Some count
       /\ Wallet.sign (DefaultWeb3Handler.wallet (handler true "0x5"))
            {| InternalTx.nonce := count + 1;
               InternalTx.gasPrice := 0;
               InternalTx.gasLimit := OvmTx.gasLimit ovmTx;
               InternalTx.to :=
                 Contract.address
                   (DefaultWeb3Handler.executionManager (handler true "0x5"));
               InternalTx.value := 0;
               InternalTx.data :=
                 DefaultWeb3Handler.getExecutionMgrTxData lib
                   (default (ZERO_ADDRESS lib) (OvmTx.to ovmTx)) (OvmTx.data ovmTx) |}
          = Some internalTx.
Proof.
  split; [reflexivity|].
  exact (internal_transaction_fields lib (handler true "0x5") rawOvmTx emptyWorld
           emptyWorld internalTx eq_refl).
Defined.

(** X11 on a submission that the provider answers with the computed hash. *)
Lemma receipt_of_submitted_witness :
  DefaultWeb3Handler.sendRawTransactionString lib
    (handler true (keccak256 lib internalTx)) rawOvmTx emptyWorld
  = (submitted lib emptyWorld rawOvmTx internalTx, Return (keccak256 lib rawOvmTx))
  /\ exists signed,
       sent (submitted lib emptyWorld rawOvmTx internalTx)
       = sent emptyWorld ++ [(Web3RpcMethods.sendRawTransaction, JString signed)]
       /\ sent (fst (DefaultWeb3Handler.getTransactionReceipt lib
                       (handler true (keccak256 lib internalTx))
                       (JString (keccak256 lib rawOvmTx))
                       (submitted lib emptyWorld rawOvmTx internalTx)))
          = sent (submitted lib emptyWorld rawOvmTx internalTx)
            ++ [(Web3RpcMethods.getTransactionReceipt,
                 JArray [JString (Web3.add0x lib (keccak256 lib signed))])].
Proof.
  assert (Hrun : DefaultWeb3Handler.sendRawTransactionString lib
                   (handler true (keccak256 lib internalTx)) rawOvmTx emptyWorld
                 = (submitted lib emptyWorld rawOvmTx internalTx,
                    Return (keccak256 lib rawOvmTx))).
  { vm_compute. reflexivity. }
  split; [exact Hrun|].
  exact (receipt_of_submitted lib (handler true (keccak256 lib internalTx))
           rawOvmTx emptyWorld _ _ Hrun eq_refl).
Defined.

(** X15 on [eth_call]. *)
Lemma mapping_written_by_sendRawTransaction_only_witness :
  resolve lib "eth_call" = Some Web3RpcMethods.call
  /\ hashMapping
       (fst (DefaultWeb3Handler.handleRequest lib (handler true "0x5") "eth_call"
               (Some [JObject [("to"%string, JString ovmAddress);
                               ("data"%string, JString "0xabcd")]])
               emptyWorld))
     = hashMapping emptyWorld.
Proof.
  split; [reflexivity|].
  apply (mapping_written_by_sendRawTransaction_only lib (handler true "0x5")).
  intros Hres. vm_compute in Hres. discriminate.
Defined.

(** X16 on one parameter where two are expected. *)
Lemma checked_arguments_witness :
  assertParameters (Some [JString "0xa1"]) 2 (JString "latest") emptyWorld
  = (emptyWorld, Return [JString "0xa1"; JString "latest"])
  /\ emptyWorld = emptyWorld
  /\ Z.of_nat (List.length [JString "0xa1"; JString "latest"]) = 2
  /\ [JString "0xa1"] `prefix_of` [JString "0xa1"; JString "latest"].
Proof.
  split; [reflexivity|].
  exact (checked_arguments (Some [JString "0xa1"]) 2 (JString "latest")
           emptyWorld emptyWorld _ eq_refl).
Defined.

(** X17 on [eth_getTransactionCount]. *)
Lemma omitted_block_is_latest_witness :
  resolve lib "eth_getTransactionCount" = Some Web3RpcMethods.getTransactionCount
  /\ DefaultWeb3Handler.handleRequest lib (handler true "0x5")
       "eth_getTransactionCount" (Some [JString ovmAddress]) emptyWorld
     = DefaultWeb3Handler.handleRequest lib (handler true "0x5")
         "eth_getTransactionCount" (Some [JString ovmAddress; JString "latest"])
         emptyWorld.
Proof.
  split; [reflexivity|].
  exact (omitted_block_is_latest lib (handler true "0x5") "eth_getTransactionCount"
           Web3RpcMethods.getTransactionCount (JString ovmAddress) emptyWorld
           eq_refl eq_refl).
Defined.

(** X18 on [eth_gasPrice] without a parameter array. *)
Lemma absent_parameters_witness :
  resolve lib "eth_gasPrice" = Some Web3RpcMethods.gasPrice
  /\ DefaultWeb3Handler.handleRequest lib (handler true "0x5") "eth_gasPrice" None
       emptyWorld
     = (emptyWorld, Return (JString "0x0")).
Proof.
  split; [reflexivity|].
  exact (absent_parameters lib (handler true "0x5") "eth_gasPrice"
           Web3RpcMethods.gasPrice emptyWorld eq_refl).
Defined.

(** X19 on the names of the spec. *)
Lemma name_selects_method_witness :
  List.NoDup (List.map (Web3.rpcName lib) cases)
  /\ resolve lib "net_version" = Some Web3RpcMethods.networkVersion
  /\ DefaultWeb3Handler.handleRequest lib (handler true "0x5") "net_version"
       (Some []) emptyWorld
     = DefaultWeb3Handler.networkVersion (handler true "0x5") emptyWorld.
Proof.
  assert (Hnd : List.NoDup (List.map (Web3.rpcName lib) cases)).
  { unfold cases. simpl.
    repeat (apply List.NoDup_cons;
            [ simpl; intros Hin;
              repeat (destruct Hin as [Hin|Hin]; [discriminate Hin|]); exact Hin | ]).
    apply List.NoDup_nil. }
  split; [exact Hnd|].
  exact (name_selects_method lib (handler true "0x5") Web3RpcMethods.networkVersion
           [] emptyWorld Hnd eq_refl).
Defined.

(** X20: the same call written with and without 0x. *)
Lemma packing_injective_witness :
  DefaultWeb3Handler.getExecutionMgrTxData lib ovmAddress "0xabcd"
  = DefaultWeb3Handler.getExecutionMgrTxData lib (repeatString "a1" 20) "abcd"
  /\ Scenario.remove0x ovmAddress = Scenario.remove0x (repeatString "a1" 20)
  /\ Scenario.remove0x "0xabcd" = Scenario.remove0x "abcd".
Proof.
  split; [reflexivity|].
  exact (packing_injective lib ovmAddress "0xabcd" (repeatString "a1" 20) "abcd"
           eq_refl eq_refl eq_refl eq_refl).
Defined.

End Web3Coverage.

(** ** The utilities and the configuration manager: proofs *)

Module CoreUtilsProofs.

Import CoreUtils.

Section Utils.

Context {O : Type}.
Variable JSON : Builtins O.

(** [jsonify] does not throw: it gives the parsed value, or the value itself
    when it is not JSON. *)
Lemma jsonify_Return (value : Value O) :
  jsonify JSON value = Return (default value (JSON_parse JSON value)).
Proof.
  unfold jsonify, isJson. now destruct (JSON_parse JSON value).
Qed.

(** X21.  [get] throws exactly when the key is absent, and then
    'Key not found'; for a key that is present it returns the stored value
    parsed as JSON, or the stored value itself when that is not JSON.  It
    never changes the configuration. *)
Theorem get_absent_or_parsed key (db : gmap string (Value O)) :
  (db !! key = None -> get JSON key db = (db, Throw KeyNotFound))
  /\ (forall value, db !! key = Some value ->
        get JSON key db = (db, Return (default value (JSON_parse JSON value))))
  /\ (forall e, snd (get JSON key db) = Throw e -> e = KeyNotFound /\ db !! key = None).
Proof.
  unfold get. split; [|split].
  - now intros ->.
  - intros value ->. now rewrite jsonify_Return.
  - intros e. destruct (db !! key) as [value|]; simpl.
    + rewrite jsonify_Return. discriminate.
    + intros He. inversion He. now split.
Qed.

(** X22.  A string that is put comes back as the string only when it is
    not itself JSON text: otherwise [get] returns what the text parses to. *)
Theorem put_get_string key s (db : gmap string (Value O)) :
  put JSON key (VString s) db = (<[key := VString s]> db, Return tt)
  /\ get JSON key (<[key := VString s]> db)
     = (<[key := VString s]> db,
        Return (default (VString s) (JSON_parse JSON (VString s)))).
Proof.
  split; [reflexivity|].
  unfold get. rewrite lookup_insert_eq. now rewrite jsonify_Return.
Qed.

(** X23.  A value that is not a string comes back from the configuration as
    it was put, provided [JSON.parse] undoes [JSON.stringify] on it. *)
Theorem put_get_value key o text (db : gmap string (Value O)) :
  JSON_stringify JSON (VOther o) = Some text ->
  JSON_parse JSON text = Some (VOther o) ->
  put JSON key (VOther o) db = (<[key := text]> db, Return tt)
  /\ get JSON key (<[key := text]> db) = (<[key := text]> db, Return (VOther o)).
Proof.
  intros Hs Hp. unfold put, get, stringify. rewrite Hs. split; [reflexivity|].
  rewrite lookup_insert_eq, jsonify_Return, Hp. reflexivity.
Qed.

(** X24.  [put] changes what [get] returns for its own key only, the last
    [put] of a key is the one that counts, and a value that cannot be
    serialized leaves the configuration as it was. *)
Theorem put_frame key value (db : gmap string (Value O)) :
  (forall other, other <> key ->
     snd (get JSON other (fst (put JSON key value db))) = snd (get JSON other db))
  /\ (forall value' parsed,
        stringify JSON value = Return parsed ->
        fst (put JSON key value (fst (put JSON key value' db)))
        = fst (put JSON key value db))
  /\ (forall e, stringify JSON value = Throw e ->
        put JSON key value db = (db, Throw e)).
Proof.
  unfold put. split; [|split].
  - intros other Hne. unfold get.
    destruct (stringify JSON value) as [e|parsed]; cbn [fst snd]; [reflexivity|].
    rewrite lookup_insert_ne by congruence. now destruct (db !! other).
  - intros value' parsed ->. cbn [fst].
    destruct (stringify JSON value') as [e'|parsed']; cbn [fst]; [reflexivity|].
    apply insert_insert_eq.
  - now intros e ->.
Qed.

End Utils.

Import CoreUtils.Scenario.

(** X23 on the boolean [true]. *)
Lemma put_get_value_witness :
  JSON_stringify toyJSON (VOther (Some true)) = Some (VString "true")
  /\ JSON_parse toyJSON (VString "true") = Some (VOther (Some true))
  /\ get toyJSON "flag" (<["flag"%string := VString "true"]> ∅)
     = (<["flag"%string := VString "true"]> ∅, Return (VOther (Some true))).
Proof.
  split; [reflexivity|]. split; [reflexivity|].
  exact (proj2 (put_get_value toyJSON "flag" (Some true) (VString "true") ∅
                  eq_refl eq_refl)).
Defined.

(** The string 'true' is put and the boolean comes back. *)
Example string_comes_back_parsed :
  snd (get toyJSON "flag" (fst (put toyJSON "flag" (VString "true") ∅)))
  = Return (VOther (Some true)).
Proof. vm_compute. reflexivity. Qed.

End CoreUtilsProofs.
